(** * Webex OAuth integration sample: the request handlers and their properties

    The repository holds three variants of one Express application:

    - [server.js]: the OAuth callback route without any session
      (module [ServerJs]);
    - the session variant built on the [request] library, with the routes
      [/index.html], [/], [/logout], [/listrooms] and [/oauth]
      (module [SessionRequest]);
    - the session variant being ported to [node-fetch], same routes
      (module [SessionFetch]).

    A handler is embedded as a [script]: the sequence of observable actions it
    performs (console output, [res.send], [res.redirect], writes to the
    session) and the outbound HTTP calls it issues, each with the callback
    that consumes the reply.  [run] executes a script against the replies of
    the remote service and the session of the caller.

    The JavaScript values the handlers inspect are modelled as far as the
    handlers look at them: truthiness, loose equality against a string,
    string concatenation and property reads.  [debug(...)] calls only write to
    the diagnostic stream; where their argument converts a query parameter to
    a string, a comparison of the same parameter stands before them and has
    thrown already if the conversion throws.  They are left out of the
    scripts. *)

From Stdlib Require Import String Ascii List ZArith Bool Lia DecimalString.
Import ListNotations.
Local Open Scope string_scope.
Set Warnings "-register-all".

(** ** JavaScript values *)

Module JS.

(** A value produced by [JSON.parse].  Numbers are the integers that a double
    holds exactly and that JavaScript prints in full (magnitude below 10^21);
    fractions and larger numbers are outside the model.  The handlers only
    test numbers for truthiness or print them. *)
Inductive json : Type :=
| JNull
| JBool (b : bool)
| JNum (n : Z)
| JStr (s : string)
| JArr (l : list json)
| JObj (l : list (string * json)).

(** A JavaScript value that may be [undefined] ([None]). *)
Definition jsval : Type := option json.

(** A value of [req.query] as the query parser of Express builds it: a
    string, an array ([state[]=a], or a repeated key) or a nested object
    ([state[k]=a]). *)
Inductive qval : Type :=
| QStr (s : string)
| QArr (l : list qval)
| QObj (l : list (string * qval)).

Definition qparam : Type := option qval.

Inductive js_error : Type :=
| SyntaxError        (* JSON.parse on text that is not JSON *)
| TypeError          (* property read on null; a value that cannot be converted *)
| ReferenceError     (* read of an identifier that was never declared *)
| FetchError         (* node-fetch: no response, or response.json() on text that
                        is not JSON *)
| HeadersSentError.  (* second res.send / res.redirect on one response *)

Definition nonempty (s : string) : bool :=
  match s with EmptyString => false | String _ _ => true end.

(** ToBoolean. *)
Definition truthy_json (j : json) : bool :=
  match j with
  | JNull => false
  | JBool b => b
  | JNum n => negb (n =? 0)%Z
  | JStr s => nonempty s
  | JArr _ | JObj _ => true
  end.

Definition truthy (v : jsval) : bool :=
  match v with None => false | Some j => truthy_json j end.

Definition qtruthy (v : qparam) : bool :=
  match v with
  | None => false
  | Some (QStr s) => nonempty s
  | Some (QArr _) | Some (QObj _) => true
  end.

Definition string_of_Z (n : Z) : string :=
  NilZero.string_of_int (Z.to_int n).

(** [Array.prototype.join(",")] over already converted elements. *)
Fixpoint join_comma (l : list string) : string :=
  match l with
  | [] => ""
  | [s] => s
  | s :: tl => s ++ "," ++ join_comma tl
  end.

(** ToString of a parsed JSON value; inside an array [null] prints as the
    empty string.  A number prints in full, as JavaScript prints an integer
    below 10^21. *)
Fixpoint to_string_json (j : json) : string :=
  match j with
  | JNull => "null"
  | JBool true => "true"
  | JBool false => "false"
  | JNum n => string_of_Z n
  | JStr s => s
  | JArr l =>
      join_comma
        ((fix elems (l : list json) : list string :=
            match l with
            | [] => []
            | JNull :: tl => "" :: elems tl
            | x :: tl => to_string_json x :: elems tl
            end) l)
  | JObj _ => "[object Object]"
  end.

(** ["text" + v]. *)
Definition to_string (v : jsval) : string :=
  match v with None => "undefined" | Some j => to_string_json j end.

Definition has_key {A : Type} (k : string) (l : list (string * A)) : bool :=
  existsb (fun member => String.eqb k (fst member)) l.

(** ToString (and ToPrimitive) of a query value; [None]: the conversion throws
    a [TypeError].  The query parser of Express lets a key overwrite an
    inherited property ([state[toString]=x]); an object with an own
    [toString] member, which is never callable, has no primitive value.  An
    array converts through its elements. *)
Fixpoint qto_string_val (q : qval) : option string :=
  match q with
  | QStr s => Some s
  | QArr l =>
      option_map join_comma
        ((fix elems (l : list qval) : option (list string) :=
            match l with
            | [] => Some []
            | x :: tl =>
                match qto_string_val x, elems tl with
                | Some s, Some ss => Some (s :: ss)
                | _, _ => None
                end
            end) l)
  | QObj l => if has_key "toString" l then None else Some "[object Object]"
  end.

Definition qto_string (v : qparam) : option string :=
  match v with None => Some "undefined" | Some q => qto_string_val q end.

(** [v == s] for a string [s]: a string is compared as it is, an array or an
    object through its conversion to a string, [undefined] equals no string;
    [None]: the conversion throws. *)
Definition loose_eq (v : qparam) (s : string) : option bool :=
  match v with
  | None => Some false
  | Some q => option_map (fun text => String.eqb text s) (qto_string_val q)
  end.

(** The comparison yields [true]. *)
Definition compares_equal (v : qparam) (s : string) : bool :=
  match loose_eq v s with
  | Some true => true
  | _ => false
  end.

(** The binding that a property read sees in an object built from a list of
    members: the last one of that name. *)
Fixpoint assoc_last {A : Type} (k : string) (l : list (string * A)) : option A :=
  match l with
  | [] => None
  | (k', v) :: tl =>
      match assoc_last k tl with
      | Some w => Some w
      | None => if String.eqb k k' then Some v else None
      end
  end.

(** [j.k] for a value [j] that is not [null], and a name [k] that no
    prototype defines (all the names the handlers read are such). *)
Definition member (j : json) (k : string) : jsval :=
  match j with
  | JObj l => assoc_last k l
  | _ => None
  end.

(** *** encodeURIComponent

    Strings are sequences of UTF-8 bytes; every byte outside the unreserved
    set is written as [%XX] with upper-case digits. *)

Definition unreserved (c : ascii) : bool :=
  let n := nat_of_ascii c in
  (((65 <=? n) && (n <=? 90))        (* A-Z *)
   || ((97 <=? n) && (n <=? 122))    (* a-z *)
   || ((48 <=? n) && (n <=? 57))     (* 0-9 *)
   || existsb (Nat.eqb n) [45; 95; 46; 33; 126; 42; 39; 40; 41])%nat. (* - _ . ! ~ * ' ( ) *)

Definition hex_digit (n : nat) : ascii :=
  if (n <? 10)%nat then ascii_of_nat (48 + n) else ascii_of_nat (55 + n).

Definition percent_byte (c : ascii) : string :=
  let n := nat_of_ascii c in
  String "%" (String (hex_digit (n / 16)) (String (hex_digit (n mod 16)) EmptyString)).

Fixpoint encodeURIComponent (s : string) : string :=
  match s with
  | EmptyString => EmptyString
  | String c tl =>
      if unreserved c then String c (encodeURIComponent tl)
      else percent_byte c ++ encodeURIComponent tl
  end.

End JS.
Import JS.

(** ** JSON text

    [JSON.parse] is a service of the runtime: the handlers take it as a
    parameter [JSON_parse], where [None] says that the text is not JSON:
    [JSON.parse] throws a [SyntaxError] then, and [response.json()] of
    node-fetch rejects with a [FetchError].  [JsonText.parse] is a reader for the fragment of JSON with integer
    numbers and without [\u] escapes, used to run the handlers on concrete
    response bodies. *)

Module JsonText.

Definition dquote : ascii := ascii_of_nat 34.

(** Sample texts are written with an apostrophe in place of each double
    quote; [quoted] puts the double quotes back. *)
Fixpoint quoted (s : string) : string :=
  match s with
  | EmptyString => EmptyString
  | String c tl => String (if Ascii.eqb c "'" then dquote else c) (quoted tl)
  end.

Definition is_ws (c : ascii) : bool :=
  existsb (Nat.eqb (nat_of_ascii c)) [32; 9; 10; 13]%nat.

Definition is_digit (c : ascii) : bool :=
  let n := nat_of_ascii c in ((48 <=? n) && (n <=? 57))%nat.

Definition digit_val (c : ascii) : Z := Z.of_nat (nat_of_ascii c - 48).

Fixpoint skip_ws (s : string) : string :=
  match s with
  | String c tl => if is_ws c then skip_ws tl else s
  | EmptyString => s
  end.

(** The characters of a string literal after its opening quote, up to the
    closing quote. *)
Fixpoint read_chars (s : string) : option (string * string) :=
  match s with
  | EmptyString => None
  | String c tl =>
      if Ascii.eqb c dquote then Some (EmptyString, tl)
      else if Ascii.eqb c "\" then
        match tl with
        | String e tl' =>
            let unescaped :=
              if Ascii.eqb e dquote then Some dquote
              else if Ascii.eqb e "\" then Some "\"%char
              else if Ascii.eqb e "/" then Some "/"%char
              else if Ascii.eqb e "n" then Some (ascii_of_nat 10)
              else if Ascii.eqb e "t" then Some (ascii_of_nat 9)
              else if Ascii.eqb e "r" then Some (ascii_of_nat 13)
              else if Ascii.eqb e "b" then Some (ascii_of_nat 8)
              else if Ascii.eqb e "f" then Some (ascii_of_nat 12)
              else None in
            match unescaped, read_chars tl' with
            | Some u, Some (str, rest) => Some (String u str, rest)
            | _, _ => None
            end
        | EmptyString => None
        end
      else if (nat_of_ascii c <? 32)%nat then None
      else
        match read_chars tl with
        | Some (str, rest) => Some (String c str, rest)
        | None => None
        end
  end.

Fixpoint read_digits (acc : Z) (s : string) : Z * string :=
  match s with
  | String c tl =>
      if is_digit c then read_digits (10 * acc + digit_val c)%Z tl else (acc, s)
  | EmptyString => (acc, s)
  end.

(** An integer literal: no leading zero, no fraction, no exponent. *)
Definition read_int (s : string) : option (Z * string) :=
  match s with
  | String c tl =>
      if is_digit c then
        let '(n, rest) := read_digits 0 s in
        let leading_zero :=
          Ascii.eqb c "0" && match tl with String d _ => is_digit d | _ => false end in
        let continues :=
          match rest with
          | String d _ => Ascii.eqb d "." || Ascii.eqb d "e" || Ascii.eqb d "E"
          | EmptyString => false
          end in
        if leading_zero || continues then None else Some (n, rest)
      else None
  | EmptyString => None
  end.

Definition read_literal (lit : string) (s : string) : option string :=
  if String.prefix lit s
  then Some (String.substring (String.length lit) (String.length s - String.length lit) s)
  else None.

Fixpoint read_value (fuel : nat) (s : string) {struct fuel} : option (json * string) :=
  match fuel with
  | O => None
  | S fuel' =>
      match skip_ws s with
      | String c tl =>
          if Ascii.eqb c "{" then
            match skip_ws tl with
            | String d tl' =>
                if Ascii.eqb d "}" then Some (JObj [], tl')
                else
                  match read_members fuel' (skip_ws tl) with
                  | Some (ms, rest) => Some (JObj ms, rest)
                  | None => None
                  end
            | EmptyString => None
            end
          else if Ascii.eqb c "[" then
            match skip_ws tl with
            | String d tl' =>
                if Ascii.eqb d "]" then Some (JArr [], tl')
                else
                  match read_elements fuel' tl with
                  | Some (es, rest) => Some (JArr es, rest)
                  | None => None
                  end
            | EmptyString => None
            end
          else if Ascii.eqb c dquote then
            match read_chars tl with
            | Some (str, rest) => Some (JStr str, rest)
            | None => None
            end
          else if Ascii.eqb c "-" then
            match read_int tl with
            | Some (n, rest) => Some (JNum (- n), rest)
            | None => None
            end
          else if is_digit c then
            match read_int (String c tl) with
            | Some (n, rest) => Some (JNum n, rest)
            | None => None
            end
          else
            match read_literal "true" (String c tl),
                  read_literal "false" (String c tl),
                  read_literal "null" (String c tl) with
            | Some rest, _, _ => Some (JBool true, rest)
            | _, Some rest, _ => Some (JBool false, rest)
            | _, _, Some rest => Some (JNull, rest)
            | _, _, _ => None
            end
      | EmptyString => None
      end
  end

with read_elements (fuel : nat) (s : string) {struct fuel} : option (list json * string) :=
  match fuel with
  | O => None
  | S fuel' =>
      match read_value fuel' s with
      | Some (v, rest) =>
          match skip_ws rest with
          | String c tl =>
              if Ascii.eqb c "]" then Some ([v], tl)
              else if Ascii.eqb c "," then
                match read_elements fuel' tl with
                | Some (vs, rest') => Some (v :: vs, rest')
                | None => None
                end
              else None
          | EmptyString => None
          end
      | None => None
      end
  end

with read_members (fuel : nat) (s : string) {struct fuel}
  : option (list (string * json) * string) :=
  match fuel with
  | O => None
  | S fuel' =>
      match s with
      | String q tl =>
          if Ascii.eqb q dquote then
            match read_chars tl with
            | Some (key, rest) =>
                match skip_ws rest with
                | String c tl' =>
                    if Ascii.eqb c ":" then
                      match read_value fuel' tl' with
                      | Some (v, rest') =>
                          match skip_ws rest' with
                          | String d tl'' =>
                              if Ascii.eqb d "}" then Some ([(key, v)], tl'')
                              else if Ascii.eqb d "," then
                                match read_members fuel' (skip_ws tl'') with
                                | Some (ms, rest'') => Some ((key, v) :: ms, rest'')
                                | None => None
                                end
                              else None
                          | EmptyString => None
                          end
                      | None => None
                      end
                    else None
                | EmptyString => None
                end
            | None => None
            end
          else None
      | EmptyString => None
      end
  end.

Definition parse (s : string) : option json :=
  match read_value (2 * String.length s + 2) s with
  | Some (v, rest) =>
      match skip_ws rest with
      | EmptyString => Some v
      | String _ _ => None
      end
  | None => None
  end.

End JsonText.

(** ** Requests, replies, sessions and handler scripts *)

Module Platform.

(** The options object handed to [request(options, callback)], or the URL and
    options handed to [fetch(url, options)].  [form] holds the fields of the
    form body in the order the source lists them. *)
Record http_request : Type := {
  method : string;
  url : string;
  headers : list (string * string);
  form : list (string * qparam)
}.

(** A string literal or string variable as a form value. *)
Definition str (s : string) : qparam := Some (QStr s).

(** What comes back from the remote service: no response at all, or a
    response with its status code and body text. *)
Inductive reply : Type :=
| NetworkFailure
| Response (statusCode : Z) (body : string).

(** [req.query] of the callback route. *)
Record query_params : Type := {
  q_error : qparam;
  q_code : qparam;
  q_state : qparam
}.

(** [req.session]: the one field the handlers use. *)
Record session : Type := { token : jsval }.

Record request : Type := {
  query : query_params;
  req_session : session
}.

(** A response body: literal markup, or the page an EJS template compiles to
    for given locals.  Template rendering is a collaborator of the handlers;
    the page is identified by the template file and the locals injected. *)
Inductive page : Type :=
| Html (markup : string)
| Ejs (template : string) (locals : list (string * jsval)).

Inductive action : Type :=
| ConsoleLog (text : string) (args : list jsval)
| ResSend (body : page)              (* res.send(body) *)
| ResRedirect (location : string)    (* res.redirect(location) *)
| SessionSetToken (v : jsval)        (* req.session.token = v *)
| SessionDestroy.                    (* req.session.destroy() *)

(** A handler body.  [Call r k] issues the outbound call [r] and continues
    with [k] once the reply is there.  [Throw e]: the exception [e] leaves
    the handler, or the callback that runs. *)
Inductive script : Type :=
| Return
| Throw (e : js_error)
| Do (a : action) (k : script)
| Call (r : http_request) (k : reply -> script).

(** [if (v == s) { yes } else { no }], where the comparison may throw. *)
Definition if_eq (v : qparam) (s : string) (yes no : script) : script :=
  match loose_eq v s with
  | Some true => yes
  | Some false => no
  | None => Throw TypeError
  end.

Inductive event : Type :=
| Did (a : action)
| Sent (r : http_request).

(** [req.session] as the handler has it ([None] once destroyed) and whether
    the response has been written.  The session middleware persists
    [req.session] when the response ends. *)
Record world : Type := {
  stored : option session;
  responded : bool
}.

Inductive status : Type :=
| Completed
| Uncaught (e : js_error)
| AwaitingReply.

(** The effect of one action on what the handler holds.  [SessionSetToken]
    assigns to [req.session], the object of this request. *)
Definition perform (a : action) (w : world) : world + js_error :=
  match a with
  | ConsoleLog _ _ => inl w
  | ResSend _ | ResRedirect _ =>
      if responded w then inr HeadersSentError
      else inl {| stored := stored w; responded := true |}
  | SessionSetToken v =>
      match stored w with
      | Some _ => inl {| stored := Some {| token := v |}; responded := responded w |}
      | None => inr TypeError
      end
  | SessionDestroy =>
      match stored w with
      | Some _ => inl {| stored := None; responded := responded w |}
      | None => inr TypeError
      end
  end.

(** Runs a script; the n-th outbound call receives the n-th reply.  The
    result is what the handler and its callbacks did: [Uncaught e] says that
    they ended in an exception they do not catch, and the trace holds what
    they wrote before.  What Express makes of it is [Express.client_receives]
    below. *)
Fixpoint run (p : script) (replies : list reply) (w : world)
  : list event * world * status :=
  match p with
  | Return => ([], w, Completed)
  | Throw e => ([], w, Uncaught e)
  | Do a k =>
      match perform a w with
      | inl w' => let '(t, w'', st) := run k replies w' in (Did a :: t, w'', st)
      | inr e => ([], w, Uncaught e)
      end
  | Call r k =>
      match replies with
      | [] => ([Sent r], w, AwaitingReply)
      | x :: rest => let '(t, w', st) := run (k x) rest w in (Sent r :: t, w', st)
      end
  end.

(** One request served by handler [h]: the query, the caller's session before
    the request, and the replies of the remote service. *)
Definition serve (h : request -> script) (q : query_params) (s : session)
    (replies : list reply) : list event * world * status :=
  run (h {| query := q; req_session := s |}) replies
      {| stored := Some s; responded := false |}.

Definition trace_of (r : list event * world * status) : list event := fst (fst r).
(** [req.session] as the run leaves it. *)
Definition session_after (r : list event * world * status) : option session :=
  stored (snd (fst r)).
Definition status_of (r : list event * world * status) : status := snd r.

(** The outbound calls of a trace, in order. *)
Fixpoint calls (t : list event) : list http_request :=
  match t with
  | [] => []
  | Sent r :: tl => r :: calls tl
  | Did _ :: tl => calls tl
  end.

(** The writes to the session (assignments and destruction) of a trace. *)
Fixpoint session_writes (t : list event) : list action :=
  match t with
  | [] => []
  | Did (SessionSetToken v) :: tl => SessionSetToken v :: session_writes tl
  | Did SessionDestroy :: tl => SessionDestroy :: session_writes tl
  | _ :: tl => session_writes tl
  end.

(** What the handler writes to the response: the bodies sent and the
    redirects. *)
Fixpoint responses (t : list event) : list action :=
  match t with
  | [] => []
  | Did (ResSend b) :: tl => ResSend b :: responses tl
  | Did (ResRedirect l) :: tl => ResRedirect l :: responses tl
  | _ :: tl => responses tl
  end.

Definition no_query : query_params :=
  {| q_error := None; q_code := None; q_state := None |}.

End Platform.
Import Platform.

(** ** Express around a route handler

    Express calls a route handler inside a [try] block.  An exception that a
    plain handler throws before it returns goes to the default error handler,
    which answers with status 500 when no response has been started.  An
    exception in a callback of a later tick (the callback of [request]) and the
    rejected promise of an [async] handler do not pass through that block:
    nothing answers the request. *)

Module Express.

Inductive handler_kind : Type :=
| Plain        (* function (req, res) { ... } *)
| AsyncHandler (* async function (req, res) { ... } *).

Inductive received : Type :=
| Answer (a : action)    (* what the handler wrote *)
| InternalServerError    (* status 500 from the default error handler *)
| NoAnswer.

(** What the user agent gets from a run of a handler.  A plain handler of
    these files runs in its own tick up to its first outbound call. *)
Definition client_receives (kind : handler_kind)
    (r : list event * world * status) : received :=
  match responses (trace_of r) with
  | a :: _ => Answer a
  | [] =>
      match kind, status_of r, calls (trace_of r) with
      | Plain, Uncaught _, [] => InternalServerError
      | _, _, _ => NoAnswer
      end
  end.

End Express.

(** ** Pages of the callback route

    The three variants send the same markup. *)

Module Pages.

(* outcomes of the error query parameter *)
Definition access_denied : page :=
  Html "<h1>OAuth Integration could not complete</h1><p>User declined data access request, bye.</p>".
Definition invalid_scope : page :=
  Html "<h1>OAuth Integration could not complete</h1><p>This application requested an invalid scope. Make sure your Integration contains all scopes being requested by the app, bye.</p>".
Definition server_error : page :=
  Html "<h1>OAuth Integration could not complete</h1><p>Webex sent a server error, bye.</p>".
Definition unknown_error : page :=
  Html "<h1>OAuth Integration could not complete</h1><p>Error case not implemented, bye.</p>".
(* code or state missing *)
Definition malformed_callback : page :=
  Html "<h1>OAuth Integration could not complete</h1><p>Unexpected query parameters, ignoring...</p>".
(* state differs *)
Definition state_mismatch : page :=
  Html "<h1>OAuth Integration could not complete</h1><p>State in response does does not match the one in the request, aborting...</p>".
(* token endpoint unreachable, or a status other than 200, 400, 401 *)
Definition no_access_token : page :=
  Html "<h1>OAuth Integration could not complete</h1><p>Sorry, could not retrieve your access token. Try again...</p>".
(* status 400; [message] is [responsePayload.message] *)
Definition bad_request (message : jsval) : page :=
  Html ("<h1>OAuth Integration could not complete</h1><p>Bad request. <br/>"
        ++ to_string message ++ "</p>").
(* status 401 *)
Definition auth_failure : page :=
  Html "<h1>OAuth Integration could not complete</h1><p>OAuth authentication error. Ask the service contact to check the secret.</p>".
(* status 200 and a field of the token bundle missing *)
Definition malformed_token_response : page :=
  Html "<h1>OAuth Integration could not complete</h1><p>Could not parse API access token. Try again...</p>".
(* resource calls *)
Definition no_account_details : page :=
  Html "<h1>OAuth Integration could not complete</h1><p>Sorry, could not retrieve your Webex account details.</p>".
Definition no_rooms : page :=
  Html "<h1>OAuth Integration could not complete</h1><p>Sorry, could not retrieve your Webex rooms.</p>".

End Pages.

(** The settings a process reads when it starts. *)
Record settings : Type := {
  clientId : string;       (* process.env.CLIENT_ID *)
  clientSecret : string;   (* process.env.CLIENT_SECRET *)
  redirectURI : string;    (* process.env.REDIRECT_URI *)
  state : string           (* process.env.STATE || crypto.randomBytes(64).toString("hex") *)
}.

(** [!json || !json.access_token || !json.expires_in || !json.refresh_token
    || !json.refresh_token_expires_in] *)
Definition token_fields_missing (json : json) : bool :=
  negb (truthy_json json)
  || negb (truthy (member json "access_token"))
  || negb (truthy (member json "expires_in"))
  || negb (truthy (member json "refresh_token"))
  || negb (truthy (member json "refresh_token_expires_in")).

(** ** The process environment

    What the files read when they are loaded: [process.env], and the bytes
    that [crypto.randomBytes] hands out. *)

Module Process.

(** [process.env]: a variable is unset ([None]) or holds a string. *)
Definition environment : Type := string -> option string.

(** [!process.env.X] is false: the variable is set and not empty. *)
Definition is_set (v : option string) : bool :=
  match v with
  | Some s => nonempty s
  | None => false
  end.

(** [process.env.X || fallback]. *)
Definition or_else {A : Type} (v : option string) (inject : string -> A) (fallback : A) : A :=
  match v with
  | Some s => if nonempty s then inject s else fallback
  | None => fallback
  end.

Definition hex_lower (n : nat) : ascii :=
  if (n <? 10)%nat then ascii_of_nat (48 + n) else ascii_of_nat (87 + n).

(** [buffer.toString("hex")]: two lower-case digits per byte. *)
Fixpoint to_hex (bytes : list ascii) : string :=
  match bytes with
  | [] => EmptyString
  | b :: tl =>
      let n := nat_of_ascii b in
      String (hex_lower (n / 16)) (String (hex_lower (n mod 16)) (to_hex tl))
  end.

(** A process that got past its configuration check and listens: its
    settings, the scopes and the port ([process.env.PORT || 8080], a string
    or the number). *)
Record listening : Type := {
  cfg : settings;
  scopes : string;
  port : string + Z
}.

End Process.

(** ** The session variant built on [request] *)

Module SessionRequest.
Section Handlers.

Variable JSON_parse : string -> option json.
Variable cfg : settings.

Definition initiateURL : string :=
  "https://webexapis.com/v1/authorize?client_id=C909b987b64167258774e532d595702ef864a35f7614678dbe4046056daf67d63&response_type=code&redirect_uri=http%3A%2F%2Flocalhost%3A8080%2Foauth&scope=spark%3Akms%20spark%3Apeople_read%20spark%3Arooms_read%20spark%3Arooms_write&state="
  ++ state cfg.

(** [ejs.compile(str)({ link: initiateURL })], evaluated once when the module
    is loaded. *)
Definition compiled : page :=
  Ejs "/www/index.ejs" [("link", Some (JStr initiateURL))].

(** [app.get("/index.html", ...)] *)
Definition get_index_html (req : request) : script :=
  Do (ResSend compiled) Return.

(** [app.get("/", ...)] *)
Definition get_root (req : request) : script :=
  Do (ResRedirect "/index.html") Return.

(** [app.get("/logout", ...)] *)
Definition get_logout (req : request) : script :=
  let rootURL :=
    String.substring 0 (String.length (redirectURI cfg) - 5) (redirectURI cfg) in
  Do (ConsoleLog ("rootURL is " ++ rootURL) [])
  (Do (ResRedirect
         ("https://idbroker.webex.com/idb/oauth2/v1/logout?token="
          ++ to_string (token (req_session req))))
  (Do SessionDestroy
   Return)).

(** The callback of the room listing call. *)
Definition listrooms_callback (r : reply) : script :=
  match r with
  | NetworkFailure => Do (ResSend Pages.no_account_details) Return
  | Response statusCode body =>
      if negb (statusCode =? 200)%Z then
        Do (ResSend Pages.no_account_details) Return
      else
        match JSON_parse body with
        | None => Throw SyntaxError
        | Some json =>
            Do (ConsoleLog "" [Some json])
            (if negb (truthy_json json) || negb (truthy (member json "items")) then
               Do (ResSend Pages.no_rooms) Return
             else
               Do (ResSend (Ejs "/www/list-rooms.ejs" [("rooms", member json "items")]))
               Return)
        end
  end.

(** [app.get("/listrooms", ...)] *)
Definition get_listrooms (req : request) : script :=
  let token := token (req_session req) in
  Do (match token with
      | None => ConsoleLog "session token available: " [token]
      | Some _ => ConsoleLog "Access token not in session variable" [token]
      end)
  (Call {| method := "GET";
           url := "https://webexapis.com/v1/rooms";
           headers := [("authorization", "Bearer " ++ to_string token)];
           form := [] |}
        listrooms_callback).

(** The callback of the profile call in [getUserInfo]. *)
Definition getUserInfo_callback (r : reply) : script :=
  match r with
  | NetworkFailure => Do (ResSend Pages.no_account_details) Return
  | Response statusCode body =>
      if negb (statusCode =? 200)%Z then
        Do (ResSend Pages.no_account_details) Return
      else
        match JSON_parse body with
        | None => Throw SyntaxError
        | Some json =>
            if negb (truthy_json json) || negb (truthy (member json "displayName")) then
              Do (ResSend Pages.no_account_details) Return
            else
              Do (ResSend (Ejs "/www/display-name.ejs"
                               [("displayName", member json "displayName")]))
              Return
        end
  end.

Definition getUserInfo (access_token : jsval) : script :=
  Call {| method := "GET";
          url := "https://webexapis.com/v1/people/me";
          headers := [("authorization", "Bearer " ++ to_string access_token)];
          form := [] |}
       getUserInfo_callback.

(** The callback of the token request in the [/oauth] handler. *)
Definition oauth_callback (r : reply) : script :=
  match r with
  | NetworkFailure => Do (ResSend Pages.no_access_token) Return
  | Response statusCode body =>
      if negb (statusCode =? 200)%Z then
        if (statusCode =? 400)%Z then
          match JSON_parse body with
          | None => Throw SyntaxError
          | Some JNull => Throw TypeError
          | Some responsePayload =>
              Do (ResSend (Pages.bad_request (member responsePayload "message"))) Return
          end
        else if (statusCode =? 401)%Z then
          Do (ResSend Pages.auth_failure) Return
        else
          Do (ResSend Pages.no_access_token) Return
      else
        match JSON_parse body with
        | None => Throw SyntaxError
        | Some json =>
            if token_fields_missing json then
              Do (ResSend Pages.malformed_token_response) Return
            else
              Do (SessionSetToken (member json "access_token"))
                 (getUserInfo (member json "access_token"))
        end
  end.

(** [app.get("/oauth", ...)] *)
Definition get_oauth (req : request) : script :=
  let q := query req in
  if qtruthy (q_error q) then
    if_eq (q_error q) "access_denied"
      (Do (ResSend Pages.access_denied) Return)
    (if_eq (q_error q) "invalid_scope"
      (Do (ResSend Pages.invalid_scope) Return)
    (if_eq (q_error q) "server_error"
      (Do (ResSend Pages.server_error) Return)
      (Do (ResSend Pages.unknown_error) Return)))
  else if negb (qtruthy (q_code q)) || negb (qtruthy (q_state q)) then
    Do (ResSend Pages.malformed_callback) Return
  else
    (* if (state != req.query.state) { ... return; } *)
    if_eq (q_state q) (state cfg)
      (Call {| method := "POST";
               url := "https://webexapis.com/v1/access_token";
               headers := [("content-type", "application/x-www-form-urlencoded")];
               form := [("grant_type", str "authorization_code");
                        ("client_id", str (clientId cfg));
                        ("client_secret", str (clientSecret cfg));
                        ("code", q_code q);
                        ("redirect_uri", str (redirectURI cfg))] |}
            oauth_callback)
      (Do (ResSend Pages.state_mismatch) Return).

(** The routes registered with [app.get]. *)
Definition routes : list (string * (request -> script)) :=
  [("/index.html", get_index_html);
   ("/", get_root);
   ("/logout", get_logout);
   ("/listrooms", get_listrooms);
   ("/oauth", get_oauth)].

End Handlers.

(** The top of the file: the check of the three required variables, then the
    settings.  [random] is the result of [crypto.randomBytes(64)] that the
    state is made of when [STATE] is not set.  [None]: the module returns
    before any route is registered. *)
Definition startup (env : Process.environment) (random : list ascii)
  : option Process.listening :=
  match env "CLIENT_ID", env "CLIENT_SECRET", env "REDIRECT_URI" with
  | Some id, Some secret, Some uri =>
      if negb (nonempty id) || negb (nonempty secret) || negb (nonempty uri) then None
      else
        Some {| Process.cfg :=
                  {| clientId := id;
                     clientSecret := secret;
                     redirectURI := uri;
                     state := Process.or_else (env "STATE") (fun s => s)
                                              (Process.to_hex random) |};
                Process.scopes :=
                  Process.or_else (env "SCOPES") (fun s => s) "spark:people_read";
                Process.port := Process.or_else (env "PORT") inl (inr 8080%Z) |}
  | _, _, _ => None
  end.

End SessionRequest.

(** ** The session variant on [node-fetch]

    The handlers are [async] functions: a rejected [fetch] or
    [response.json()] promise, or any other exception, rejects the promise of
    the handler, which nobody catches.  [response.json()] of node-fetch
    rejects with a [FetchError] when the body is not JSON. *)

Module SessionFetch.
Section Handlers.

Variable JSON_parse : string -> option json.
Variable clientSecret : string.   (* process.env.CLIENT_SECRET *)
Variable state : string.          (* process.env.STATE || crypto.randomBytes(64).toString("hex") *)

Definition initiateURL : string :=
  "https://webexapis.com/v1/authorize?client_id=C97c955d459b1195dd914456c56d7193b3b9db2f96e55226d1bb875c6dc40c16a&response_type=code&redirect_uri=http%3A%2F%2Flocalhost%3A8080%2Foauth&scope=spark%3Akms%20spark%3Apeople_read%20spark%3Arooms_read&state="
  ++ state.

(** [new URL(initiateURL).searchParams.get("client_id")]: the first
    [client_id] parameter of the literal above. *)
Definition clientId : string :=
  "C97c955d459b1195dd914456c56d7193b3b9db2f96e55226d1bb875c6dc40c16a".

(** [urlParams.get("redirect_uri")]: the first [redirect_uri] parameter of the
    literal above, percent-decoded. *)
Definition redirectURI : string := "http://localhost:8080/oauth".

Definition compiled : page :=
  Ejs "/www/index.ejs" [("link", Some (JStr initiateURL))].

(** [token != undefined]: false for [undefined] and for [null]. *)
Definition is_nullish (v : jsval) : bool :=
  match v with
  | None | Some JNull => true
  | Some _ => false
  end.

(** [app.get("/index.html", ...)] *)
Definition get_index_html (req : request) : script :=
  let token := token (req_session req) in
  Do (if negb (is_nullish token)
      then ConsoleLog "session token available: " [token]
      else ConsoleLog "Access token not in session variable, redirecting to home page" [])
  (Do (ResSend compiled)
   Return).

(** [app.get("/", ...)] *)
Definition get_root (req : request) : script :=
  Do (ResRedirect "/index.html") Return.

(** [getUserInfo]: no check of the reply is left in this variant. *)
Definition getUserInfo (access_token : jsval) : script :=
  Call {| method := "GET";
          url := "https://webexapis.com/v1/people/me";
          headers := [("authorization", "Bearer " ++ to_string access_token)];
          form := [] |}
       (fun r =>
          match r with
          | NetworkFailure => Throw FetchError
          | Response _ body =>
              match JSON_parse body with
              | None => Throw FetchError
              | Some JNull => Throw TypeError
              | Some data =>
                  Do (ResSend (Ejs "/www/display-name.ejs"
                                   [("displayName", member data "displayName")]))
                  Return
              end
          end).

(** [app.get("/oauth", ...)] *)
Definition get_oauth (req : request) : script :=
  let q := query req in
  if qtruthy (q_error q) then
    if_eq (q_error q) "access_denied"
      (Do (ResSend Pages.access_denied) Return)
    (if_eq (q_error q) "invalid_scope"
      (Do (ResSend Pages.invalid_scope) Return)
    (if_eq (q_error q) "server_error"
      (Do (ResSend Pages.server_error) Return)
      (Do (ResSend Pages.unknown_error) Return)))
  else if negb (qtruthy (q_code q)) || negb (qtruthy (q_state q)) then
    Do (ResSend Pages.malformed_callback) Return
  else
    (* if (state != req.query.state) { ... return; } *)
    if_eq (q_state q) state
      (* new URLSearchParams([...]) converts every value to a string *)
      (match qto_string (q_code q) with
       | None => Throw TypeError
       | Some code =>
           Call {| method := "POST";
                   url := "https://webexapis.com/v1/access_token";
                   headers := [("Content-type", "application/x-www-form-urlencoded")];
                   form := [("grant_type", str "authorization_code");
                            ("client_id", str clientId);
                            ("client_secret", str clientSecret);
                            ("code", str code);
                            ("redirect_uri", str redirectURI)] |}
                (fun r =>
                   match r with
                   | NetworkFailure => Throw FetchError
                   | Response _ body =>
                       match JSON_parse body with
                       | None => Throw FetchError
                       | Some data =>
                           Do (ConsoleLog "" [Some data])
                           (match data with
                            | JNull => Throw TypeError
                            | _ =>
                                Do (SessionSetToken (member data "access_token"))
                                   (getUserInfo (member data "access_token"))
                            end)
                       end
                   end)
       end)
      (Do (ResSend Pages.state_mismatch) Return).

(** [app.get("/logout", ...)] *)
Definition get_logout (req : request) : script :=
  let rootURL := String.substring 0 (String.length redirectURI - 5) redirectURI in
  Do (ConsoleLog ("rootURL is " ++ rootURL) [])
  (Do (ResRedirect
         ("https://idbroker.webex.com/idb/oauth2/v1/logout?token="
          ++ to_string (token (req_session req))))
  (Do SessionDestroy
   Return)).

(** [app.get("/listrooms", ...)] *)
Definition get_listrooms (req : request) : script :=
  let token := token (req_session req) in
  let fetch_rooms :=
    Call {| method := "GET";
            url := "https://webexapis.com/v1/rooms";
            headers := [("authorization", "Bearer " ++ to_string token)];
            form := [] |}
         (fun r =>
            match r with
            | NetworkFailure => Throw FetchError
            | Response _ body =>
                match JSON_parse body with
                | None => Throw FetchError
                | Some data =>
                    Do (ConsoleLog "" [Some data])
                    (match data with
                     | JNull => Throw TypeError
                     | _ =>
                         Do (ResSend (Ejs "/www/list-rooms.ejs"
                                          [("rooms", member data "items")]))
                         Return
                     end)
                end
            end) in
  if is_nullish token then
    Do (ConsoleLog "Access token not in session variable, redirecting to home page." [])
    (Do (ResSend (Html "/"))
     fetch_rooms)
  else
    fetch_rooms.

(** The routes registered with [app.get]. *)
Definition routes : list (string * (request -> script)) :=
  [("/index.html", get_index_html);
   ("/", get_root);
   ("/oauth", get_oauth);
   ("/logout", get_logout);
   ("/listrooms", get_listrooms)].

End Handlers.

(** [urlParams.get("scope")]: the [scope] parameter of the authorization URL,
    percent-decoded. *)
Definition scopes : string := "spark:kms spark:people_read spark:rooms_read".

(** The top of the file.  The state is fixed first, the client id, the
    redirect URI and the scopes are read back from the authorization URL, the
    secret and the port from the environment; then comes the check. *)
Definition startup (env : Process.environment) (random : list ascii)
  : option Process.listening :=
  let state := Process.or_else (env "STATE") (fun s => s) (Process.to_hex random) in
  match env "CLIENT_SECRET" with
  | Some clientSecret =>
      if negb (nonempty clientId) || negb (nonempty clientSecret)
         || negb (nonempty redirectURI)
      then None
      else
        Some {| Process.cfg := Build_settings clientId clientSecret redirectURI state;
                Process.scopes := scopes;
                Process.port := Process.or_else (env "PORT") inl (inr 8080%Z) |}
  | None => None
  end.

End SessionFetch.

(** ** [server.js]: the callback route without a session *)

Module ServerJs.
Section Handlers.

Variable JSON_parse : string -> option json.
Variable clientId : string.       (* process.env.CLIENT_ID *)
Variable clientSecret : string.   (* process.env.CLIENT_SECRET *)
Variable redirectURI : string.    (* process.env.REDIRECT_URI *)

(** The callback of the profile call in [oauthFlowCompleted]. *)
Definition oauthFlowCompleted_callback (r : reply) : script :=
  match r with
  | NetworkFailure => Do (ResSend Pages.no_account_details) Return
  | Response statusCode body =>
      if negb (statusCode =? 200)%Z then
        Do (ResSend Pages.no_account_details) Return
      else
        match JSON_parse body with
        | None => Throw SyntaxError
        | Some json =>
            if negb (truthy_json json) || negb (truthy (member json "displayName")) then
              Do (ResSend Pages.no_account_details) Return
            else
              Do (ResSend (Ejs "/www/display-name.ejs"
                               [("displayName", member json "displayName")]))
              Return
        end
  end.

Definition oauthFlowCompleted (access_token : jsval) : script :=
  Call {| method := "GET";
          url := "https://webexapis.com/v1/people/me";
          headers := [("authorization", "Bearer " ++ to_string access_token)];
          form := [] |}
       oauthFlowCompleted_callback.

(** The callback of the token request in the [/oauth] handler. *)
Definition oauth_callback (r : reply) : script :=
  match r with
  | NetworkFailure => Do (ResSend Pages.no_access_token) Return
  | Response statusCode body =>
      if negb (statusCode =? 200)%Z then
        if (statusCode =? 400)%Z then
          match JSON_parse body with
          | None => Throw SyntaxError
          | Some JNull => Throw TypeError
          | Some responsePayload =>
              Do (ResSend (Pages.bad_request (member responsePayload "message"))) Return
          end
        else if (statusCode =? 401)%Z then
          Do (ResSend Pages.auth_failure) Return
        else
          Do (ResSend Pages.no_access_token) Return
      else
        match JSON_parse body with
        | None => Throw SyntaxError
        | Some json =>
            if token_fields_missing json then
              Do (ResSend Pages.malformed_token_response) Return
            else
              oauthFlowCompleted (member json "access_token")
        end
  end.

(** The file declares no variable [state] (and no global of that name
    exists): reading the identifier throws a [ReferenceError]. *)
Definition state : option string := None.

(** [app.get("/oauth", ...)] *)
Definition get_oauth (req : request) : script :=
  let q := query req in
  if qtruthy (q_error q) then
    if_eq (q_error q) "access_denied"
      (Do (ResSend Pages.access_denied) Return)
    (if_eq (q_error q) "invalid_scope"
      (Do (ResSend Pages.invalid_scope) Return)
    (if_eq (q_error q) "server_error"
      (Do (ResSend Pages.server_error) Return)
      (Do (ResSend Pages.unknown_error) Return)))
  else if negb (qtruthy (q_code q)) || negb (qtruthy (q_state q)) then
    Do (ResSend Pages.malformed_callback) Return
  else
    match state with
    | None => Throw ReferenceError
    | Some state =>
        if_eq (q_state q) state
          (Call {| method := "POST";
                   url := "https://webexapis.com/v1/access_token";
                   headers := [("content-type", "application/x-www-form-urlencoded")];
                   form := [("grant_type", str "authorization_code");
                            ("client_id", str clientId);
                            ("client_secret", str clientSecret);
                            ("code", q_code q);
                            ("redirect_uri", str redirectURI)] |}
                oauth_callback)
          (Do (ResSend Pages.state_mismatch) Return)
    end.

(** The one route registered with [app.get]. *)
Definition routes : list (string * (request -> script)) :=
  [("/oauth", get_oauth)].

(** [refreshAccessToken]: the same endpoint with the refresh grant.  Every
    branch of its callback only reports to the diagnostic stream.
    [refresh_token] is the value as it goes into the form. *)
Definition refreshAccessToken (refresh_token : qparam) : script :=
  Call {| method := "POST";
          url := "https://webexapis.com/v1/access_token";
          headers := [("content-type", "application/x-www-form-urlencoded")];
          form := [("grant_type", str "refresh_token");
                   ("client_id", str clientId);
                   ("client_secret", str clientSecret);
                   ("refresh_token", refresh_token)] |}
       (fun r =>
          match r with
          | NetworkFailure => Return
          | Response statusCode body =>
              if negb (statusCode =? 200)%Z then Return
              else
                match JSON_parse body with
                | None => Throw SyntaxError
                | Some json =>
                    if token_fields_missing json then Return else Return
                end
          end).

(** [storeTokens]: nothing is stored, the token is refreshed at once. *)
Definition storeTokens (access_token expires_in : jsval) (refresh_token : qparam)
    (refresh_token_expires_in : jsval) : script :=
  refreshAccessToken refresh_token.

End Handlers.

(** Lengths are counted in bytes, which for an ASCII redirect URI (see
    [is_ascii]) is the length JavaScript counts.  No route of the file calls
    this function. *)
Definition getLogoutURL (token : jsval) (redirectURL : string) : string :=
  let rootURL := String.substring 0 (String.length redirectURL - 5) redirectURL in
  "https://idbroker.webex.com/idb/oauth2/v1/logout?"
  ++ "goto=" ++ encodeURIComponent rootURL
  ++ "&token=" ++ to_string token.

(** The configuration the file reads when it is loaded; there is no state. *)
Record config : Type := {
  clientId : string;
  clientSecret : string;
  redirectURI : string;
  scopes : string;
  port : string + Z
}.

(** The top of the file.  [None]: the module returns before the route is
    registered and before [app.listen]. *)
Definition startup (env : Process.environment) : option config :=
  match env "CLIENT_ID", env "CLIENT_SECRET", env "REDIRECT_URI" with
  | Some id, Some secret, Some uri =>
      if negb (nonempty id) || negb (nonempty secret) || negb (nonempty uri) then None
      else
        Some {| clientId := id;
                clientSecret := secret;
                redirectURI := uri;
                scopes := Process.or_else (env "SCOPES") (fun s => s)
                            "spark:people_read meeting:schedules_read meeting:people_write";
                port := Process.or_else (env "PORT") inl (inr 8080%Z) |}
  | _, _, _ => None
  end.

End ServerJs.

(** ** Vocabulary of the specification *)

(** The kinds of denial the callback route tells apart. *)
Inductive denial : Type :=
| access_denied
| invalid_scope
| server_error
| unknown.

(** The cascade of comparisons on [req.query.error]. *)
Definition classify (error : qparam) : denial :=
  if compares_equal error "access_denied" then access_denied
  else if compares_equal error "invalid_scope" then invalid_scope
  else if compares_equal error "server_error" then server_error
  else unknown.

Definition denial_page (k : denial) : page :=
  match k with
  | access_denied => Pages.access_denied
  | invalid_scope => Pages.invalid_scope
  | server_error => Pages.server_error
  | unknown => Pages.unknown_error
  end.

(** A callback as the provider sends it after consent: no error parameter,
    a code and a state, both non-empty strings. *)
Definition well_formed_callback (q : query_params) (code st : string) : Prop :=
  qtruthy (q_error q) = false
  /\ q_code q = str code /\ code <> ""
  /\ q_state q = str st /\ st <> "".

(** A parsed token response that carries the whole bundle: the two tokens as
    non-empty strings, the two lifetimes as non-zero numbers. *)
Definition complete_bundle (j : json) (access : string) : Prop :=
  exists expires refresh refresh_expires,
    member j "access_token" = Some (JStr access) /\ access <> ""
    /\ member j "expires_in" = Some (JNum expires) /\ expires <> 0%Z
    /\ member j "refresh_token" = Some (JStr refresh) /\ refresh <> ""
    /\ member j "refresh_token_expires_in" = Some (JNum refresh_expires)
    /\ refresh_expires <> 0%Z.

(** The token request of the callback route: a POST to the token endpoint
    whose form holds exactly these five fields. *)
Definition is_token_request (r : http_request)
    (client_id client_secret code redirect_uri : string) : Prop :=
  method r = "POST"
  /\ url r = "https://webexapis.com/v1/access_token"
  /\ form r = [("grant_type", str "authorization_code");
               ("client_id", str client_id);
               ("client_secret", str client_secret);
               ("code", str code);
               ("redirect_uri", str redirect_uri)].

Definition logout_endpoint : string :=
  "https://idbroker.webex.com/idb/oauth2/v1/logout".

(** A run that issued no outbound call and left the session as it was. *)
Definition refuses_exchange (r : list event * world * status) (s : session) : Prop :=
  calls (trace_of r) = [] /\ session_writes (trace_of r) = [] /\ session_after r = Some s.

(** Scripts that never write to the session, whatever the replies. *)
Inductive session_free : script -> Prop :=
| sf_return : session_free Return
| sf_throw (e : js_error) : session_free (Throw e)
| sf_log (text : string) (args : list jsval) (k : script) :
    session_free k -> session_free (Do (ConsoleLog text args) k)
| sf_send (b : page) (k : script) :
    session_free k -> session_free (Do (ResSend b) k)
| sf_redirect (l : string) (k : script) :
    session_free k -> session_free (Do (ResRedirect l) k)
| sf_call (r : http_request) (k : reply -> script) :
    (forall x, session_free (k x)) -> session_free (Call r k).

(** Scripts that never issue an outbound call. *)
Inductive call_free : script -> Prop :=
| cf_return : call_free Return
| cf_throw (e : js_error) : call_free (Throw e)
| cf_do (a : action) (k : script) : call_free k -> call_free (Do a k).

(** The writes to the session the request variant performs for a well-formed
    callback: one, of the access token, exactly when the first reply has
    status 200, parses and passes the check of the four fields. *)
Definition writes_of_exchange (JSON_parse : string -> option json)
    (replies : list reply) : list action :=
  match replies with
  | Response statusCode body :: _ =>
      if (statusCode =? 200)%Z then
        match JSON_parse body with
        | Some j =>
            if token_fields_missing j then []
            else [SessionSetToken (member j "access_token")]
        | None => []
        end
      else []
  | _ => []
  end.

(** ** Sample inputs *)

Module Sample.

Definition cfg : settings :=
  {| clientId := "C123";
     clientSecret := "s3cret";
     redirectURI := "http://localhost:8080/oauth";
     state := "5ca1ab1e" |}.

Definition callback : query_params :=
  {| q_error := None; q_code := str "abc123"; q_state := str "5ca1ab1e" |}.

Definition anonymous : session := {| token := None |}.

Definition bundle_body : string :=
  (JsonText.quoted "{'access_token':'T1','expires_in':1209600,'refresh_token':'R1','refresh_token_expires_in':7776000}").

Definition bundle_json : json :=
  JObj [("access_token", JStr "T1"); ("expires_in", JNum 1209600);
        ("refresh_token", JStr "R1"); ("refresh_token_expires_in", JNum 7776000)].

End Sample.

(** Scripts that write no response, whatever the replies. *)
Inductive silent : script -> Prop :=
| si_return : silent Return
| si_throw (e : js_error) : e <> HeadersSentError -> silent (Throw e)
| si_log (text : string) (args : list jsval) (k : script) :
    silent k -> silent (Do (ConsoleLog text args) k)
| si_set (v : jsval) (k : script) :
    silent k -> silent (Do (SessionSetToken v) k)
| si_destroy (k : script) :
    silent k -> silent (Do SessionDestroy k)
| si_call (r : http_request) (k : reply -> script) :
    (forall x, silent (k x)) -> silent (Call r k).

(** Scripts that write at most one response on every path. *)
Inductive responds_once : script -> Prop :=
| ro_return : responds_once Return
| ro_throw (e : js_error) : e <> HeadersSentError -> responds_once (Throw e)
| ro_log (text : string) (args : list jsval) (k : script) :
    responds_once k -> responds_once (Do (ConsoleLog text args) k)
| ro_set (v : jsval) (k : script) :
    responds_once k -> responds_once (Do (SessionSetToken v) k)
| ro_destroy (k : script) :
    responds_once k -> responds_once (Do SessionDestroy k)
| ro_send (b : page) (k : script) :
    silent k -> responds_once (Do (ResSend b) k)
| ro_redirect (l : string) (k : script) :
    silent k -> responds_once (Do (ResRedirect l) k)
| ro_call (r : http_request) (k : reply -> script) :
    (forall x, responds_once (k x)) -> responds_once (Call r k).

(** The characters of a string. *)
Fixpoint chars (s : string) : list ascii :=
  match s with
  | EmptyString => []
  | String c tl => c :: chars tl
  end.

(** A text of ASCII characters only: one byte and one UTF-16 unit per
    character, so that [String.length] and [String.substring] count as
    JavaScript's [length] and [substring] do. *)
Definition is_ascii (s : string) : bool :=
  forallb (fun c => (nat_of_ascii c <? 128)%nat) (chars s).



(** A lower-case hexadecimal digit. *)
Definition is_hex_lower (c : ascii) : bool :=
  let n := nat_of_ascii c in
  (((48 <=? n) && (n <=? 57)) || ((97 <=? n) && (n <=? 102)))%nat.


Definition rooms_request (token : jsval) : http_request :=
  {| method := "GET";
     url := "https://webexapis.com/v1/rooms";
     headers := [("authorization", "Bearer " ++ to_string token)];
     form := [] |}.

(** The token request of the request variant for a callback. *)
Definition token_request (cfg : settings) (q : query_params) : http_request :=
  {| method := "POST";
     url := "https://webexapis.com/v1/access_token";
     headers := [("content-type", "application/x-www-form-urlencoded")];
     form := [("grant_type", str "authorization_code");
              ("client_id", str (clientId cfg));
              ("client_secret", str (clientSecret cfg));
              ("code", q_code q);
              ("redirect_uri", str (redirectURI cfg))] |}.

(** The three checks of the callback route, all passed. *)
Definition checks_pass (q : query_params) (expected : string) : bool :=
  negb (qtruthy (q_error q))
  && qtruthy (q_code q) && qtruthy (q_state q)
  && compares_equal (q_state q) expected.

(** ** Sample environments *)

Module SampleEnv.

Definition configured : Process.environment :=
  fun name =>
    if String.eqb name "CLIENT_ID" then Some "C123"
    else if String.eqb name "CLIENT_SECRET" then Some "s3cret"
    else if String.eqb name "REDIRECT_URI" then Some "http://localhost:8080/oauth"
    else None.

Definition secret_only : Process.environment :=
  fun name => if String.eqb name "CLIENT_SECRET" then Some "s3cret" else None.

(** Sixty-four bytes, as [crypto.randomBytes(64)] returns them. *)
Definition random : list ascii :=
  map ascii_of_nat (seq 100 64).

End SampleEnv.

(** Case analysis along the cascade of comparisons on the error parameter. *)
Ltac split_denials q :=
  unfold if_eq in *;
  destruct (loose_eq (q_error q) "access_denied") as [[ | ] | ];
  [ | destruct (loose_eq (q_error q) "invalid_scope") as [[ | ] | ];
      [ | destruct (loose_eq (q_error q) "server_error") as [[ | ] | ] | ] | ].

(** Closes the side conditions of [silent] and [responds_once]. *)
Ltac quiet := repeat (first [ constructor | discriminate ]).


(** ** Properties *)

Example encodeURIComponent_root :
  encodeURIComponent "http://localhost:8080/" = "http%3A%2F%2Flocalhost%3A8080%2F".
Proof. reflexivity. Qed.

Example to_string_samples :
  to_string None = "undefined"
  /\ to_string (Some (JNum 400)) = "400"
  /\ to_string (Some (JArr [JStr "a"; JNull; JNum (-3)])) = "a,,-3"
  /\ loose_eq (Some (QArr [QStr "abc"])) "abc" = Some true
  /\ loose_eq (Some (QObj [("k", QStr "abc")])) "abc" = Some false
  /\ loose_eq (Some (QObj [("toString", QStr "abc")])) "abc" = None
  /\ qto_string (Some (QArr [QStr "a"; QObj [("toString", QStr "b")]])) = None.
Proof. repeat split; reflexivity. Qed.

Example parse_samples :
  JsonText.parse (JsonText.quoted "{'message':'Invalid code'}") = Some (JObj [("message", JStr "Invalid code")])
  /\ JsonText.parse (JsonText.quoted " [1, -2, {'a': [true, false, null]}] ")
     = Some (JArr [JNum 1; JNum (-2); JObj [("a", JArr [JBool true; JBool false; JNull])]])
  /\ JsonText.parse "null" = Some JNull
  /\ JsonText.parse "" = None
  /\ JsonText.parse "<html>" = None
  /\ JsonText.parse (JsonText.quoted "{'a':1,}") = None.
Proof. vm_compute. repeat split; reflexivity. Qed.

Lemma loose_eq_str (s t : string) : loose_eq (str s) t = Some (String.eqb s t).
Proof. reflexivity. Qed.

Lemma loose_eq_undefined (t : string) : loose_eq None t = Some false.
Proof. reflexivity. Qed.

Lemma compares_equal_str (s t : string) : compares_equal (str s) t = String.eqb s t.
Proof. unfold compares_equal. cbn. destruct (String.eqb s t); reflexivity. Qed.

Lemma nonempty_true (s : string) : s <> "" -> nonempty s = true.
Proof. destruct s; [congruence | reflexivity]. Qed.

Lemma sample_parse_bundle : JsonText.parse Sample.bundle_body = Some Sample.bundle_json.
Proof. vm_compute. reflexivity. Qed.

Lemma denial_page_injective (k1 k2 : denial) :
  denial_page k1 = denial_page k2 -> k1 = k2.
Proof. destruct k1, k2; intros H; try reflexivity; discriminate H. Qed.

(** The client id and the redirect URI of the fetch variant are the
    parameters of its authorization URL. *)
Lemma fetch_settings_in_initiateURL (st : string) :
  SessionFetch.initiateURL st
  = "https://webexapis.com/v1/authorize?client_id=" ++ SessionFetch.clientId
    ++ "&response_type=code&redirect_uri=" ++ encodeURIComponent SessionFetch.redirectURI
    ++ "&scope=spark%3Akms%20spark%3Apeople_read%20spark%3Arooms_read&state=" ++ st.
Proof. reflexivity. Qed.

(** *** Scripts without session writes, scripts without calls *)

Lemma run_session_free (p : script) :
  session_free p ->
  forall replies w,
    stored (snd (fst (run p replies w))) = stored w
    /\ session_writes (fst (fst (run p replies w))) = [].
Proof.
  induction 1 as [ | e | text args k _ IH | b k _ IH | l k _ IH | r k _ IH ];
    intros replies w; cbn.
  - split; reflexivity.
  - split; reflexivity.
  - destruct (IH replies w) as [Hs Hw].
    destruct (run k replies w) as [[t w'] st]; cbn in *. split; assumption.
  - destruct (responded w); cbn; [split; reflexivity | ].
    destruct (IH replies {| stored := stored w; responded := true |}) as [Hs Hw].
    destruct (run k replies _) as [[t w'] st]; cbn in *. split; assumption.
  - destruct (responded w); cbn; [split; reflexivity | ].
    destruct (IH replies {| stored := stored w; responded := true |}) as [Hs Hw].
    destruct (run k replies _) as [[t w'] st]; cbn in *. split; assumption.
  - destruct replies as [ | x rest]; cbn; [split; reflexivity | ].
    destruct (IH x rest w) as [Hs Hw].
    destruct (run (k x) rest w) as [[t w'] st]; cbn in *. split; assumption.
Qed.

Lemma run_call_free (p : script) :
  call_free p ->
  forall replies w, calls (fst (fst (run p replies w))) = [].
Proof.
  induction 1 as [ | e | a k _ IH ]; intros replies w; cbn; try reflexivity.
  destruct (perform a w) as [w' | e]; cbn; [ | reflexivity].
  specialize (IH replies w').
  destruct (run k replies w') as [[t w''] st]; cbn in *. assumption.
Qed.

Lemma getUserInfo_session_free (JSON_parse : string -> option json) (v : jsval) :
  session_free (SessionRequest.getUserInfo JSON_parse v).
Proof.
  unfold SessionRequest.getUserInfo. constructor. intros [ | statusCode body]; cbn.
  - repeat constructor.
  - destruct (negb (statusCode =? 200)%Z); [repeat constructor | ].
    destruct (JSON_parse body) as [json | ]; [ | constructor].
    destruct (negb (truthy_json json) || negb (truthy (member json "displayName")));
      repeat constructor.
Qed.

Lemma fetch_getUserInfo_session_free (JSON_parse : string -> option json) (v : jsval) :
  session_free (SessionFetch.getUserInfo JSON_parse v).
Proof.
  unfold SessionFetch.getUserInfo. constructor. intros [ | statusCode body].
  - constructor.
  - destruct (JSON_parse body) as [[ | | | | | ] | ]; repeat constructor.
Qed.

(** *** The checks of the callback route *)

(** C4, as amended.  A callback whose [error] parameter is a non-empty string
    is answered, in each of the three variants, by the page of its kind and
    nothing else: the kind is one of [access_denied], [invalid_scope],
    [server_error], [unknown]; the four pages differ pairwise; no outbound
    call is issued and the session is not written; and the answer does not
    depend on [code] or [state], which are not looked at. *)
Theorem oauth_error_parameter_classified
    (JSON_parse : string -> option json) (cfg : settings)
    (q : query_params) (s : session) (replies : list reply) (error : string) :
  q_error q = str error ->
  error <> "" ->
  let answer :=
    ([Did (ResSend (denial_page (classify (q_error q))))],
     {| stored := Some s; responded := true |}, Completed) in
  serve (SessionRequest.get_oauth JSON_parse cfg) q s replies = answer
  /\ serve (SessionFetch.get_oauth JSON_parse (clientSecret cfg) (state cfg)) q s replies
     = answer
  /\ serve (ServerJs.get_oauth JSON_parse (clientId cfg) (clientSecret cfg) (redirectURI cfg))
           q s replies = answer
  /\ refuses_exchange answer s
  /\ (forall k1 k2 : denial, denial_page k1 = denial_page k2 -> k1 = k2).
Proof.
  intros Herr Hnonempty answer. subst answer.
  unfold serve, SessionRequest.get_oauth, SessionFetch.get_oauth, ServerJs.get_oauth,
    classify, if_eq.
  cbn [query req_session]. rewrite Herr. cbn [qtruthy str].
  rewrite !compares_equal_str, !loose_eq_str, (nonempty_true _ Hnonempty).
  repeat split; try apply denial_page_injective;
    destruct (String.eqb error "access_denied"), (String.eqb error "invalid_scope"),
      (String.eqb error "server_error"); reflexivity.
Qed.

Lemma oauth_error_parameter_classified_witness :
  let q := {| q_error := str "invalid_scope"; q_code := None; q_state := str "forged" |} in
  (q_error q = str "invalid_scope" /\ "invalid_scope" <> "")
  /\ serve (SessionRequest.get_oauth JsonText.parse Sample.cfg) q Sample.anonymous []
     = ([Did (ResSend Pages.invalid_scope)],
        {| stored := Some Sample.anonymous; responded := true |}, Completed).
Proof.
  intro q.
  assert (Hnonempty : "invalid_scope" <> "") by discriminate.
  split; [split; [reflexivity | exact Hnonempty] | ].
  exact (proj1 (oauth_error_parameter_classified JsonText.parse Sample.cfg q
                  Sample.anonymous [] "invalid_scope" eq_refl Hnonempty)).
Defined.

(** C4 as stated fails: a callback that carries an [error] parameter with an
    empty value, a code and the expected state is not classified; the token
    request goes out with its code. *)
Lemma empty_error_parameter_exchanged :
  let q := {| q_error := str ""; q_code := str "abc123"; q_state := str "5ca1ab1e" |} in
  q_error q <> None
  /\ exists r,
       trace_of (serve (SessionRequest.get_oauth JsonText.parse Sample.cfg) q
                       Sample.anonymous []) = [Sent r]
       /\ is_token_request r "C123" "s3cret" "abc123" "http://localhost:8080/oauth".
Proof.
  cbv zeta. split; [discriminate | ].
  eexists. split; [reflexivity | repeat split; reflexivity].
Qed.

(** An [error] parameter that is truthy without being a string (an array, an
    object) never leads to a call or to a session write either, also when
    the comparison throws. *)
Lemma truthy_error_parameter_refused
    (JSON_parse : string -> option json) (cfg : settings)
    (q : query_params) (s : session) (replies : list reply) :
  qtruthy (q_error q) = true ->
  refuses_exchange (serve (SessionRequest.get_oauth JSON_parse cfg) q s replies) s
  /\ refuses_exchange
       (serve (SessionFetch.get_oauth JSON_parse (clientSecret cfg) (state cfg)) q s replies) s
  /\ refuses_exchange
       (serve (ServerJs.get_oauth JSON_parse (clientId cfg) (clientSecret cfg)
                                  (redirectURI cfg)) q s replies) s.
Proof.
  intros Herr.
  unfold serve, SessionRequest.get_oauth, SessionFetch.get_oauth, ServerJs.get_oauth.
  cbn [query req_session]. rewrite Herr.
  repeat split; split_denials q; reflexivity.
Qed.

(** An error parameter whose comparison throws: the plain handlers are
    answered by Express with status 500, the [async] one is not answered. *)
Example error_parameter_with_toString :
  let q := {| q_error := Some (QObj [("toString", QStr "x")]); q_code := None;
              q_state := None |} in
  Express.client_receives Express.Plain
    (serve (SessionRequest.get_oauth JsonText.parse Sample.cfg) q Sample.anonymous [])
  = Express.InternalServerError
  /\ Express.client_receives Express.AsyncHandler
       (serve (SessionFetch.get_oauth JsonText.parse "s3cret" "5ca1ab1e") q
              Sample.anonymous [])
     = Express.NoAnswer.
Proof. split; reflexivity. Qed.

(** Each of the four kinds is met by some error value. *)
Lemma classify_onto :
  classify (str "access_denied") = access_denied
  /\ classify (str "invalid_scope") = invalid_scope
  /\ classify (str "server_error") = server_error
  /\ classify (str "temporarily_unavailable") = unknown.
Proof. repeat split; reflexivity. Qed.

(** The callback route of the request variant issues a call only when all
    three checks pass. *)
Lemma request_oauth_call_free
    (JSON_parse : string -> option json) (cfg : settings) (req : request) :
  qtruthy (q_error (query req)) = true
  \/ qtruthy (q_code (query req)) = false
  \/ qtruthy (q_state (query req)) = false
  \/ compares_equal (q_state (query req)) (state cfg) = false ->
  call_free (SessionRequest.get_oauth JSON_parse cfg req).
Proof.
  unfold SessionRequest.get_oauth. cbv zeta.
  destruct (qtruthy (q_error (query req))) eqn:Herr.
  - intros _. split_denials (query req); repeat constructor.
  - destruct (qtruthy (q_code (query req))); [ | intros _; repeat constructor].
    destruct (qtruthy (q_state (query req))); [ | intros _; repeat constructor].
    unfold compares_equal, if_eq.
    intros [H | [H | [H | H]]]; try discriminate H.
    destruct (loose_eq (q_state (query req)) (state cfg)) as [[ | ] | ];
      [discriminate H | repeat constructor ..].
Qed.




(** The comparison is JavaScript's loose one: an array parameter holding the
    expected state passes it, and the token request is issued; an object
    parameter with a member [toString] makes it throw. *)
Lemma array_state_passes_comparison :
  let q := {| q_error := None; q_code := str "abc123";
              q_state := Some (QArr [QStr "5ca1ab1e"]) |} in
  q_state q <> str (state Sample.cfg)
  /\ exists r, trace_of (serve (SessionRequest.get_oauth JsonText.parse Sample.cfg) q
                               Sample.anonymous []) = [Sent r].
Proof. cbv zeta. split; [discriminate | eexists; reflexivity]. Qed.

Example state_with_toString_throws :
  let q := {| q_error := None; q_code := str "abc123";
              q_state := Some (QObj [("toString", QStr "5ca1ab1e")]) |} in
  serve (SessionRequest.get_oauth JsonText.parse Sample.cfg) q Sample.anonymous []
  = ([], {| stored := Some Sample.anonymous; responded := false |}, Uncaught TypeError)
  /\ Express.client_receives Express.Plain
       (serve (SessionRequest.get_oauth JsonText.parse Sample.cfg) q Sample.anonymous [])
     = Express.InternalServerError.
Proof. split; reflexivity. Qed.

(** [server.js] never reaches the comparison of states with a value: a
    callback that passes the first two checks ends in a [ReferenceError]. *)
Lemma server_js_state_undeclared
    (JSON_parse : string -> option json) (cid secret uri : string)
    (q : query_params) (s : session) (replies : list reply) :
  qtruthy (q_error q) = false ->
  qtruthy (q_code q) = true ->
  qtruthy (q_state q) = true ->
  serve (ServerJs.get_oauth JSON_parse cid secret uri) q s replies
  = ([], {| stored := Some s; responded := false |}, Uncaught ReferenceError).
Proof.
  intros He Hc Hs. unfold serve, ServerJs.get_oauth. cbn [query req_session].
  rewrite He, Hc, Hs. reflexivity.
Qed.

(** *** The token exchange *)

Lemma well_formed_passes_checks (q : query_params) (code st : string) :
  well_formed_callback q code st ->
  qtruthy (q_error q) = false
  /\ qtruthy (q_code q) = true
  /\ qtruthy (q_state q) = true
  /\ loose_eq (q_state q) st = Some true.
Proof.
  intros (Herr & Hcode & Hc & Hstate & Hs).
  rewrite Hcode, Hstate. cbn.
  rewrite (nonempty_true _ Hc), (nonempty_true _ Hs), String.eqb_refl. auto.
Qed.

Lemma complete_bundle_accepted (j : json) (access : string) :
  complete_bundle j access ->
  token_fields_missing j = false /\ member j "access_token" = Some (JStr access).
Proof.
  intros (e & r & re & Ha & Hna & He & Hne & Hr & Hnr & Hre & Hnre).
  split; [ | exact Ha].
  unfold token_fields_missing. rewrite Ha, He, Hr, Hre. cbn.
  rewrite (nonempty_true _ Hna), (nonempty_true _ Hnr).
  destruct j; try discriminate Ha. cbn.
  apply Z.eqb_neq in Hne, Hnre. rewrite Hne, Hnre. reflexivity.
Qed.

(** The request variant after its checks: the token request goes out. *)
Lemma request_oauth_calls (JSON_parse : string -> option json) (cfg : settings)
    (req : request) (code : string) :
  well_formed_callback (query req) code (state cfg) ->
  SessionRequest.get_oauth JSON_parse cfg req
  = Call {| method := "POST";
            url := "https://webexapis.com/v1/access_token";
            headers := [("content-type", "application/x-www-form-urlencoded")];
            form := [("grant_type", str "authorization_code");
                     ("client_id", str (clientId cfg));
                     ("client_secret", str (clientSecret cfg));
                     ("code", str code);
                     ("redirect_uri", str (redirectURI cfg))] |}
         (SessionRequest.oauth_callback JSON_parse).
Proof.
  intros Hwf. destruct (well_formed_passes_checks _ _ _ Hwf) as (He & Hc & Hs & Heq).
  destruct Hwf as (_ & Hcode & _).
  unfold SessionRequest.get_oauth, if_eq. cbv zeta.
  rewrite He, Hc, Hs, Heq, Hcode. reflexivity.
Qed.

Lemma fetch_oauth_calls (JSON_parse : string -> option json) (secret st : string)
    (req : request) (code : string) :
  well_formed_callback (query req) code st ->
  exists k,
    SessionFetch.get_oauth JSON_parse secret st req
    = Call {| method := "POST";
              url := "https://webexapis.com/v1/access_token";
              headers := [("Content-type", "application/x-www-form-urlencoded")];
              form := [("grant_type", str "authorization_code");
                       ("client_id", str SessionFetch.clientId);
                       ("client_secret", str secret);
                       ("code", str code);
                       ("redirect_uri", str SessionFetch.redirectURI)] |}
           k
    /\ forall statusCode body j,
         JSON_parse body = Some j -> j <> JNull ->
         k (Response statusCode body)
         = Do (ConsoleLog "" [Some j])
             (Do (SessionSetToken (member j "access_token"))
                 (SessionFetch.getUserInfo JSON_parse (member j "access_token"))).
Proof.
  intros Hwf. destruct (well_formed_passes_checks _ _ _ Hwf) as (He & Hc & Hs & Heq).
  destruct Hwf as (_ & Hcode & _).
  unfold SessionFetch.get_oauth, if_eq. cbv zeta. rewrite He, Hc, Hs, Heq, Hcode.
  eexists. split; [reflexivity | ].
  intros statusCode body j Hj Hnull. cbv beta iota. rewrite Hj.
  destruct j; try reflexivity. congruence.
Qed.

(** The accepted token response in the request variant: the access token is
    written to the session, then the profile is fetched. *)
Lemma request_callback_accepts (JSON_parse : string -> option json)
    (body : string) (j : json) :
  JSON_parse body = Some j ->
  token_fields_missing j = false ->
  SessionRequest.oauth_callback JSON_parse (Response 200 body)
  = Do (SessionSetToken (member j "access_token"))
       (SessionRequest.getUserInfo JSON_parse (member j "access_token")).
Proof.
  intros Hj Hok. unfold SessionRequest.oauth_callback. cbn. rewrite Hj, Hok. reflexivity.
Qed.

(** C3.  A well-formed callback whose state is the expected one makes both
    session variants send a POST to the token endpoint whose form holds
    [grant_type=authorization_code], the client id, the client secret, the
    received code and the redirect URI; when the provider answers 200 with a
    complete token bundle, the session holds that bundle's access token
    afterwards, whatever the later replies. *)
Theorem exchange_binds_access_token
    (JSON_parse : string -> option json) (cfg : settings)
    (q : query_params) (s : session) (code : string) :
  well_formed_callback q code (state cfg) ->
  let h1 := SessionRequest.get_oauth JSON_parse cfg in
  let h2 := SessionFetch.get_oauth JSON_parse (clientSecret cfg) (state cfg) in
  (forall replies, exists r t,
      trace_of (serve h1 q s replies) = Sent r :: t
      /\ is_token_request r (clientId cfg) (clientSecret cfg) code (redirectURI cfg))
  /\ (forall replies, exists r t,
      trace_of (serve h2 q s replies) = Sent r :: t
      /\ is_token_request r SessionFetch.clientId (clientSecret cfg) code
                          SessionFetch.redirectURI)
  /\ (forall body j access rest,
      JSON_parse body = Some j ->
      complete_bundle j access ->
      session_after (serve h1 q s (Response 200 body :: rest))
      = Some {| token := Some (JStr access) |}
      /\ session_after (serve h2 q s (Response 200 body :: rest))
         = Some {| token := Some (JStr access) |}).
Proof.
  intros Hwf h1 h2. subst h1 h2. unfold serve, trace_of, session_after.
  set (req := {| query := q; req_session := s |}).
  pose proof (request_oauth_calls JSON_parse cfg req code Hwf) as H1.
  destruct (fetch_oauth_calls JSON_parse (clientSecret cfg) (state cfg) req code Hwf)
    as (k & H2 & Hk).
  rewrite H1, H2. split; [ | split; [ | intros body j access rest Hj Hb; split ] ].
  - intros [ | x rest]; cbn.
    + do 2 eexists. repeat split; reflexivity.
    + destruct (run _ rest _) as [[t w] st]. do 2 eexists. repeat split; reflexivity.
  - intros [ | x rest]; cbn.
    + do 2 eexists. repeat split; reflexivity.
    + destruct (run _ rest _) as [[t w] st]. do 2 eexists. repeat split; reflexivity.
  - destruct (complete_bundle_accepted _ _ Hb) as [Hok Hacc].
    cbn [run]. rewrite (request_callback_accepts _ _ _ Hj Hok). cbn [run perform stored].
    pose proof (run_session_free _
      (getUserInfo_session_free JSON_parse (member j "access_token")) rest
      {| stored := Some {| token := member j "access_token" |}; responded := false |})
      as [Hs _].
    cbn [responded] in *.
    destruct (run (SessionRequest.getUserInfo _ _) rest _) as [[t w] st].
    cbn in *. rewrite Hs, Hacc. reflexivity.
  - destruct (complete_bundle_accepted _ _ Hb) as [Hok Hacc].
    assert (Hnn : j <> JNull) by (intros ->; discriminate Hacc).
    cbn [run]. rewrite (Hk 200%Z body j Hj Hnn). cbn [run perform stored responded].
    pose proof (run_session_free _
      (fetch_getUserInfo_session_free JSON_parse (member j "access_token")) rest
      {| stored := Some {| token := member j "access_token" |}; responded := false |})
      as [Hs _].
    destruct (run (SessionFetch.getUserInfo _ _) rest _) as [[t w] st].
    cbn in *. rewrite Hs, Hacc. reflexivity.
Qed.

Lemma sample_callback_well_formed :
  well_formed_callback Sample.callback "abc123" (state Sample.cfg).
Proof. repeat split; try reflexivity; discriminate. Defined.

Lemma sample_bundle_complete : complete_bundle Sample.bundle_json "T1".
Proof.
  exists 1209600%Z, "R1", 7776000%Z.
  repeat split; try reflexivity; discriminate.
Defined.

Lemma exchange_binds_access_token_witness :
  well_formed_callback Sample.callback "abc123" (state Sample.cfg)
  /\ session_after
       (serve (SessionRequest.get_oauth JsonText.parse Sample.cfg) Sample.callback
              Sample.anonymous [Response 200 Sample.bundle_body])
     = Some {| token := Some (JStr "T1") |}.
Proof.
  split; [exact sample_callback_well_formed | ].
  exact (proj1 (proj2 (proj2
           (exchange_binds_access_token JsonText.parse Sample.cfg Sample.callback
              Sample.anonymous "abc123" sample_callback_well_formed))
           Sample.bundle_body Sample.bundle_json "T1" []
           sample_parse_bundle sample_bundle_complete)).
Defined.

(** The scenario of the specification, run on the request variant: code
    [abc123], matching state, the provider returns the bundle with access token
    [T1], then the profile. *)
Example scenario_abc123 :
  serve (SessionRequest.get_oauth JsonText.parse Sample.cfg) Sample.callback
        Sample.anonymous
        [Response 200 Sample.bundle_body; Response 200 (JsonText.quoted "{'displayName':'Ann'}")]
  = ([Sent {| method := "POST";
              url := "https://webexapis.com/v1/access_token";
              headers := [("content-type", "application/x-www-form-urlencoded")];
              form := [("grant_type", str "authorization_code");
                       ("client_id", str "C123");
                       ("client_secret", str "s3cret");
                       ("code", str "abc123");
                       ("redirect_uri", str "http://localhost:8080/oauth")] |};
      Did (SessionSetToken (Some (JStr "T1")));
      Sent {| method := "GET";
              url := "https://webexapis.com/v1/people/me";
              headers := [("authorization", "Bearer T1")];
              form := [] |};
      Did (ResSend (Ejs "/www/display-name.ejs" [("displayName", Some (JStr "Ann"))]))],
     {| stored := Some {| token := Some (JStr "T1") |}; responded := true |},
     Completed).
Proof. vm_compute. reflexivity. Qed.

(** A bundle whose lifetime is zero passes for incomplete: the handlers test
    the fields for truthiness. *)
Example zero_lifetime_rejected :
  token_fields_missing
    (JObj [("access_token", JStr "T1"); ("expires_in", JNum 0);
           ("refresh_token", JStr "R1"); ("refresh_token_expires_in", JNum 7776000)])
  = true.
Proof. reflexivity. Qed.



(** *** Validation of the token response *)

(** The request variant refuses a 200 response that lacks one of the four
    fields: the parse-failure page is sent and the session is not written. *)
Lemma request_variant_rejects_incomplete_bundle
    (JSON_parse : string -> option json) (cfg : settings)
    (q : query_params) (s : session) (code body field : string) (j : json)
    (rest : list reply) :
  well_formed_callback q code (state cfg) ->
  JSON_parse body = Some j ->
  In field ["access_token"; "expires_in"; "refresh_token"; "refresh_token_expires_in"] ->
  member j field = None ->
  let r := serve (SessionRequest.get_oauth JSON_parse cfg) q s (Response 200 body :: rest) in
  responses (trace_of r) = [ResSend Pages.malformed_token_response]
  /\ session_writes (trace_of r) = []
  /\ session_after r = Some s
  /\ status_of r = Completed.
Proof.
  intros Hwf Hj Hin Hmiss r. subst r. unfold serve.
  rewrite (request_oauth_calls JSON_parse cfg {| query := q; req_session := s |} code Hwf).
  assert (Hbad : token_fields_missing j = true).
  { unfold token_fields_missing.
    destruct Hin as [<- | [<- | [<- | [<- | []]]]]; rewrite Hmiss; cbn;
      rewrite ?orb_true_r; reflexivity. }
  cbn. rewrite Hj, Hbad. cbn. repeat split; reflexivity.
Qed.

Lemma request_variant_binds_iff_accepted
    (JSON_parse : string -> option json) (cfg : settings)
    (q : query_params) (s : session) (code : string) (replies : list reply) :
  well_formed_callback q code (state cfg) ->
  session_writes (trace_of (serve (SessionRequest.get_oauth JSON_parse cfg) q s replies))
  = writes_of_exchange JSON_parse replies.
Proof.
  intros Hwf. unfold serve, trace_of.
  rewrite (request_oauth_calls JSON_parse cfg {| query := q; req_session := s |} code Hwf).
  destruct replies as [ | [ | statusCode body] rest]; try reflexivity.
  cbn [run]. unfold SessionRequest.oauth_callback, writes_of_exchange.
  destruct (statusCode =? 200)%Z eqn:H200; cbn [negb].
  - destruct (JSON_parse body) as [j | ]; [ | reflexivity].
    destruct (token_fields_missing j); [reflexivity | ].
    cbn [run perform stored responded].
    pose proof (run_session_free _
      (getUserInfo_session_free JSON_parse (member j "access_token")) rest
      {| stored := Some {| token := member j "access_token" |}; responded := false |})
      as [_ Hw].
    destruct (run (SessionRequest.getUserInfo _ _) rest _) as [[t w] st].
    cbn in *. rewrite Hw. reflexivity.
  - destruct (statusCode =? 400)%Z.
    + destruct (JSON_parse body) as [[ | | | | | ] | ]; reflexivity.
    + destruct (statusCode =? 401)%Z; reflexivity.
Qed.

(** C2 fails in the fetch variant: its callback route checks neither the
    status nor the fields.  A reply that carries an access token and none of
    the other three fields is written to the session, and no failure page is
    sent. *)
Theorem fetch_variant_binds_incomplete_response :
  let incomplete := (JsonText.quoted "{'access_token':'T1'}") in
  let r := serve (SessionFetch.get_oauth JsonText.parse "s3cret" "5ca1ab1e")
                 Sample.callback Sample.anonymous [Response 200 incomplete] in
  JsonText.parse incomplete = Some (JObj [("access_token", JStr "T1")])
  /\ token_fields_missing (JObj [("access_token", JStr "T1")]) = true
  /\ session_writes (trace_of r) = [SessionSetToken (Some (JStr "T1"))]
  /\ session_after r = Some {| token := Some (JStr "T1") |}
  /\ responses (trace_of r) = [].
Proof. vm_compute. repeat split; reflexivity. Qed.

(** A rejected code in the fetch variant: the provider answers 400 with a
    message, the handler assigns the missing access token to the session and
    asks for the profile with [Bearer undefined]; no failure page is sent. *)
Example fetch_variant_ignores_status :
  trace_of (serve (SessionFetch.get_oauth JsonText.parse "s3cret" "5ca1ab1e")
                  Sample.callback Sample.anonymous
                  [Response 400 (JsonText.quoted "{'message':'Invalid code'}")])
  = [Sent {| method := "POST";
             url := "https://webexapis.com/v1/access_token";
             headers := [("Content-type", "application/x-www-form-urlencoded")];
             form := [("grant_type", str "authorization_code");
                      ("client_id", str SessionFetch.clientId);
                      ("client_secret", str "s3cret");
                      ("code", str "abc123");
                      ("redirect_uri", str "http://localhost:8080/oauth")] |};
     Did (ConsoleLog "" [Some (JObj [("message", JStr "Invalid code")])]);
     Did (SessionSetToken None);
     Sent {| method := "GET";
             url := "https://webexapis.com/v1/people/me";
             headers := [("authorization", "Bearer undefined")];
             form := [] |}].
Proof. vm_compute. reflexivity. Qed.

(** The fetch variant writes the session for every parseable reply that is
    not [null], whatever its status and fields. *)
Lemma fetch_variant_writes_unchecked
    (JSON_parse : string -> option json) (secret st : string)
    (q : query_params) (s : session) (code body : string) (statusCode : Z) (j : json)
    (rest : list reply) :
  well_formed_callback q code st ->
  JSON_parse body = Some j ->
  j <> JNull ->
  session_writes
    (trace_of (serve (SessionFetch.get_oauth JSON_parse secret st) q s
                     (Response statusCode body :: rest)))
  = [SessionSetToken (member j "access_token")].
Proof.
  intros Hwf Hj Hnn. unfold serve, trace_of.
  destruct (fetch_oauth_calls JSON_parse secret st {| query := q; req_session := s |}
              code Hwf) as (k & Hcall & Hk).
  rewrite Hcall. cbn [run]. rewrite (Hk statusCode body j Hj Hnn).
  cbn [run perform stored responded].
  pose proof (run_session_free _
    (fetch_getUserInfo_session_free JSON_parse (member j "access_token")) rest
    {| stored := Some {| token := member j "access_token" |}; responded := false |})
    as [_ Hw].
  destruct (run (SessionFetch.getUserInfo _ _) rest _) as [[t w] st'].
  cbn in *. rewrite Hw. reflexivity.
Qed.

(** *** Status codes and unparseable bodies *)

(** What the token callback of the request variant does with a reply whose
    status is not 200. *)
Lemma token_callback_status_pages
    (JSON_parse : string -> option json) (statusCode : Z) (body : string) :
  statusCode <> 200%Z ->
  SessionRequest.oauth_callback JSON_parse (Response statusCode body)
  = if (statusCode =? 400)%Z then
      match JSON_parse body with
      | None => Throw SyntaxError
      | Some JNull => Throw TypeError
      | Some payload => Do (ResSend (Pages.bad_request (member payload "message"))) Return
      end
    else if (statusCode =? 401)%Z then Do (ResSend Pages.auth_failure) Return
    else Do (ResSend Pages.no_access_token) Return.
Proof.
  intros Hs. apply Z.eqb_neq in Hs. unfold SessionRequest.oauth_callback.
  rewrite Hs. reflexivity.
Qed.

Lemma token_callback_unparseable
    (JSON_parse : string -> option json) (statusCode : Z) (body : string) :
  JSON_parse body = None ->
  statusCode = 200%Z \/ statusCode = 400%Z ->
  SessionRequest.oauth_callback JSON_parse (Response statusCode body) = Throw SyntaxError
  /\ ServerJs.oauth_callback JSON_parse (Response statusCode body) = Throw SyntaxError.
Proof.
  intros Hnone [-> | ->]; unfold SessionRequest.oauth_callback, ServerJs.oauth_callback;
    cbn; rewrite Hnone; auto.
Qed.

(** C5 fails on replies whose body is not JSON: [JSON.parse] throws inside the
    callback, nothing catches the error and no page is sent.  Status 200 with
    a markup body, and status 400 with a plain text body, in the request
    variant and in the callback of [server.js]. *)
Theorem unparseable_token_response_uncaught :
  let markup := "<html><body>Service Unavailable</body></html>" in
  let r200 := serve (SessionRequest.get_oauth JsonText.parse Sample.cfg) Sample.callback
                    Sample.anonymous [Response 200 markup] in
  let r400 := serve (SessionRequest.get_oauth JsonText.parse Sample.cfg) Sample.callback
                    Sample.anonymous [Response 400 "Bad Request"] in
  JsonText.parse markup = None
  /\ status_of r200 = Uncaught SyntaxError /\ responses (trace_of r200) = []
  /\ status_of r400 = Uncaught SyntaxError /\ responses (trace_of r400) = []
  /\ ServerJs.oauth_callback JsonText.parse (Response 200 markup) = Throw SyntaxError
  /\ ServerJs.oauth_callback JsonText.parse (Response 400 "Bad Request") = Throw SyntaxError.
Proof. vm_compute. repeat split; reflexivity. Qed.

(** The replies the token callback does render: 401, another status, and 400
    with a JSON body. *)
Example token_callback_rendered_statuses :
  let run_with reply :=
    responses (trace_of (serve (SessionRequest.get_oauth JsonText.parse Sample.cfg)
                               Sample.callback Sample.anonymous [reply])) in
  run_with (Response 401 "") = [ResSend Pages.auth_failure]
  /\ run_with (Response 503 "") = [ResSend Pages.no_access_token]
  /\ run_with NetworkFailure = [ResSend Pages.no_access_token]
  /\ run_with (Response 400 (JsonText.quoted "{'message':'Invalid code'}"))
     = [ResSend (Pages.bad_request (Some (JStr "Invalid code")))]
  /\ run_with (Response 400 "{}") = [ResSend (Pages.bad_request None)]
  /\ Pages.bad_request None
     = Html "<h1>OAuth Integration could not complete</h1><p>Bad request. <br/>undefined</p>".
Proof. vm_compute. repeat split; reflexivity. Qed.

(** *** The room listing *)

(** C6 fails for a caller without a token.  Neither session variant redirects:
    the request variant only logs, the fetch variant sends the one-character
    body ["/"] and goes on; both then issue the room listing call, with the
    header [Bearer undefined]. *)
Theorem listrooms_without_token_calls_anyway
    (JSON_parse : string -> option json) (q : query_params) :
  let rooms_call :=
    {| method := "GET";
       url := "https://webexapis.com/v1/rooms";
       headers := [("authorization", "Bearer undefined")];
       form := [] |} in
  serve (SessionRequest.get_listrooms JSON_parse) q {| token := None |} []
  = ([Did (ConsoleLog "session token available: " [None]); Sent rooms_call],
     {| stored := Some {| token := None |}; responded := false |}, AwaitingReply)
  /\ serve (SessionFetch.get_listrooms JSON_parse) q {| token := None |} []
     = ([Did (ConsoleLog "Access token not in session variable, redirecting to home page." []);
         Did (ResSend (Html "/"));
         Sent rooms_call],
        {| stored := Some {| token := None |}; responded := true |}, AwaitingReply).
Proof. split; reflexivity. Qed.

(** In the fetch variant the listing that comes back cannot be rendered any
    more: the response was already written. *)
Example fetch_listrooms_without_token_second_send :
  status_of (serve (SessionFetch.get_listrooms JsonText.parse) no_query {| token := None |}
                   [Response 401 (JsonText.quoted "{'message':'unauthorized'}")])
  = Uncaught HeadersSentError.
Proof. vm_compute. reflexivity. Qed.

(** With a token, the request variant issues one GET with the bearer header,
    requires [items] in the reply and renders the rooms. *)
Lemma request_listrooms_with_token
    (JSON_parse : string -> option json) (q : query_params) (t : json)
    (body : string) (j : json) (rest : list reply) :
  JSON_parse body = Some j ->
  let r := serve (SessionRequest.get_listrooms JSON_parse) q {| token := Some t |}
                 (Response 200 body :: rest) in
  calls (trace_of r)
  = [{| method := "GET";
        url := "https://webexapis.com/v1/rooms";
        headers := [("authorization", "Bearer " ++ to_string_json t)];
        form := [] |}]
  /\ responses (trace_of r)
     = [ResSend (if truthy_json j && truthy (member j "items")
                 then Ejs "/www/list-rooms.ejs" [("rooms", member j "items")]
                 else Pages.no_rooms)]
  /\ session_after r = Some {| token := Some t |}.
Proof.
  intros Hj r. subst r. unfold serve, SessionRequest.get_listrooms. cbn.
  rewrite Hj. cbn.
  destruct (truthy_json j); cbn; [ | repeat split; reflexivity].
  destruct (truthy (member j "items")); cbn; repeat split; reflexivity.
Qed.

(** The fetch variant does not require [items]: a reply without it is handed
    to the template with [rooms] undefined. *)
Example fetch_listrooms_items_not_required :
  responses (trace_of (serve (SessionFetch.get_listrooms JsonText.parse) no_query
                             {| token := Some (JStr "T1") |}
                             [Response 200 (JsonText.quoted "{'message':'no rooms'}")]))
  = [ResSend (Ejs "/www/list-rooms.ejs" [("rooms", None)])].
Proof. vm_compute. reflexivity. Qed.

(** *** Logout *)

(** The helper of [server.js] builds the URL with both parameters, the root
    being the redirect URI without its last five characters. *)
Lemma getLogoutURL_shape (token : jsval) (redirectURL : string) :
  ServerJs.getLogoutURL token redirectURL
  = logout_endpoint ++ "?goto="
    ++ encodeURIComponent
         (String.substring 0 (String.length redirectURL - 5) redirectURL)
    ++ "&token=" ++ to_string token.
Proof. reflexivity. Qed.

Lemma server_js_routes (JSON_parse : string -> option json) (cid secret uri : string) :
  map fst (ServerJs.routes JSON_parse cid secret uri) = ["/oauth"].
Proof. reflexivity. Qed.

(** C7 fails on the redirect target.  The [/logout] handlers compute the root
    URL, log it, and redirect to the logout endpoint with the [token]
    parameter alone; the URL with [goto] is what [getLogoutURL] of [server.js]
    builds, and no route calls it.  The session is destroyed. *)
Theorem logout_redirect_lacks_goto :
  let s := {| token := Some (JStr "T1") |} in
  let r1 := serve (SessionRequest.get_logout Sample.cfg) no_query s [] in
  let r2 := serve SessionFetch.get_logout no_query s [] in
  responses (trace_of r1)
  = [ResRedirect "https://idbroker.webex.com/idb/oauth2/v1/logout?token=T1"]
  /\ responses (trace_of r2) = responses (trace_of r1)
  /\ ServerJs.getLogoutURL (token s) (redirectURI Sample.cfg)
     = "https://idbroker.webex.com/idb/oauth2/v1/logout?goto=http%3A%2F%2Flocalhost%3A8080%2F&token=T1"
  /\ session_after r1 = None /\ session_after r2 = None.
Proof. vm_compute. repeat split; reflexivity. Qed.

(** C10.  For every session, the [/logout] handlers of both session variants
    redirect to the logout endpoint followed by [?token=] and the session
    token as it converts to a string, nothing encoded; without a token the
    text is [token=undefined]; in every case the session is destroyed after
    the redirect.  [getLogoutURL] of [server.js] ends its URL with the token in
    the same way. *)
Theorem logout_token_concatenated_raw
    (cfg : settings) (q : query_params) (s : session) (replies : list reply)
    (t : string) :
  let target (s : session) := logout_endpoint ++ "?token=" ++ to_string (token s) in
  let r1 := serve (SessionRequest.get_logout cfg) q s replies in
  let r2 := serve SessionFetch.get_logout q s replies in
  responses (trace_of r1) = [ResRedirect (target s)]
  /\ responses (trace_of r2) = [ResRedirect (target s)]
  /\ session_writes (trace_of r1) = [SessionDestroy]
  /\ session_writes (trace_of r2) = [SessionDestroy]
  /\ session_after r1 = None /\ session_after r2 = None
  /\ status_of r1 = Completed /\ status_of r2 = Completed
  /\ target {| token := Some (JStr t) |} = logout_endpoint ++ "?token=" ++ t
  /\ target {| token := None |}
     = "https://idbroker.webex.com/idb/oauth2/v1/logout?token=undefined"
  /\ (forall redirectURL, exists front,
        ServerJs.getLogoutURL (token s) redirectURL
        = front ++ "&token=" ++ to_string (token s)).
Proof.
  cbv zeta. repeat split; try reflexivity.
  intros redirectURL.
  exists (logout_endpoint ++ "?goto="
          ++ encodeURIComponent
               (String.substring 0 (String.length redirectURL - 5) redirectURL)).
  reflexivity.
Qed.

(** A token with reserved characters goes into the URL as it is. *)
Example logout_reserved_characters :
  responses (trace_of (serve (SessionRequest.get_logout Sample.cfg) no_query
                             {| token := Some (JStr "a b&goto=x") |} []))
  = [ResRedirect "https://idbroker.webex.com/idb/oauth2/v1/logout?token=a b&goto=x"]
  /\ encodeURIComponent "a b&goto=x" = "a%20b%26goto%3Dx".
Proof. vm_compute. split; reflexivity. Qed.

(** *** The home page *)

(** C9 as stated fails for [GET /]: the handler sends no page, it answers with
    a redirect to [/index.html]. *)
Lemma root_route_redirects :
  responses (trace_of (serve SessionRequest.get_root no_query Sample.anonymous []))
  = [ResRedirect "/index.html"]
  /\ responses (trace_of (serve SessionFetch.get_root no_query Sample.anonymous []))
     = [ResRedirect "/index.html"]
  /\ ResRedirect "/index.html" <> ResSend (SessionRequest.compiled Sample.cfg).
Proof. repeat split; try reflexivity; discriminate. Qed.

(** C9, as amended.  In both session variants, [GET /index.html] sends the
    page compiled when the process starts from [index.ejs] with the
    authorization link as [link], for every query and every session; the
    handler issues no call and leaves the session alone, and the only thing
    that depends on the session token is the line logged by the fetch variant.
    [GET /] redirects to [/index.html], for every session. *)
Theorem home_page_independent_of_session
    (cfg : settings) (q : query_params) (s : session) (replies : list reply) :
  let r1 := serve (SessionRequest.get_index_html cfg) q s replies in
  let r2 := serve (SessionFetch.get_index_html (state cfg)) q s replies in
  r1 = ([Did (ResSend (SessionRequest.compiled cfg))],
        {| stored := Some s; responded := true |}, Completed)
  /\ (exists text args,
        r2 = ([Did (ConsoleLog text args); Did (ResSend (SessionFetch.compiled (state cfg)))],
              {| stored := Some s; responded := true |}, Completed))
  /\ responses (trace_of r2) = [ResSend (SessionFetch.compiled (state cfg))]
  /\ SessionRequest.compiled cfg
     = Ejs "/www/index.ejs" [("link", Some (JStr (SessionRequest.initiateURL cfg)))]
  /\ SessionFetch.compiled (state cfg)
     = Ejs "/www/index.ejs" [("link", Some (JStr (SessionFetch.initiateURL (state cfg))))]
  /\ serve SessionRequest.get_root q s replies
     = ([Did (ResRedirect "/index.html")],
        {| stored := Some s; responded := true |}, Completed)
  /\ serve SessionFetch.get_root q s replies
     = ([Did (ResRedirect "/index.html")],
        {| stored := Some s; responded := true |}, Completed).
Proof.
  cbv zeta. unfold serve, SessionFetch.get_index_html. cbn [req_session].
  repeat split; try reflexivity.
  - destruct (negb (SessionFetch.is_nullish (token s))); do 2 eexists; reflexivity.
  - destruct (negb (SessionFetch.is_nullish (token s))); reflexivity.
Qed.

(** ** Further properties of the handlers *)

(** *** Responses *)

Lemma run_silent (p : script) :
  silent p ->
  forall replies w,
    responses (fst (fst (run p replies w))) = []
    /\ snd (run p replies w) <> Uncaught HeadersSentError.
Proof.
  induction 1 as [ | e He | text args k _ IH | v k _ IH | k _ IH | r k _ IH ];
    intros replies w; cbn.
  - split; [reflexivity | discriminate].
  - split; [reflexivity | congruence].
  - specialize (IH replies w).
    destruct (run k replies w) as [[t w'] st]; cbn in *. exact IH.
  - destruct (stored w); cbn; [ | split; [reflexivity | discriminate]].
    match goal with |- context [run k replies ?w0] => specialize (IH replies w0) end.
    destruct (run k replies _) as [[t w'] st]; cbn in *. exact IH.
  - destruct (stored w); cbn; [ | split; [reflexivity | discriminate]].
    match goal with |- context [run k replies ?w0] => specialize (IH replies w0) end.
    destruct (run k replies _) as [[t w'] st]; cbn in *. exact IH.
  - destruct replies as [ | x rest]; cbn; [split; [reflexivity | discriminate] | ].
    specialize (IH x rest w).
    destruct (run (k x) rest w) as [[t w'] st]; cbn in *. exact IH.
Qed.

Lemma run_responds_once (p : script) :
  responds_once p ->
  forall replies w,
    responded w = false ->
    (length (responses (fst (fst (run p replies w)))) <= 1)%nat
    /\ snd (run p replies w) <> Uncaught HeadersSentError.
Proof.
  induction 1 as [ | e He | text args k _ IH | v k _ IH | k _ IH
                   | b k Hk | l k Hk | r k _ IH ];
    intros replies w Hw; cbn.
  - split; [lia | discriminate].
  - split; [lia | congruence].
  - specialize (IH replies w Hw).
    destruct (run k replies w) as [[t w'] st]; cbn in *. exact IH.
  - destruct (stored w); cbn; [ | split; [lia | discriminate]].
    match goal with |- context [run k replies ?w0] => specialize (IH replies w0 Hw) end.
    destruct (run k replies _) as [[t w'] st]; cbn in *. exact IH.
  - destruct (stored w); cbn; [ | split; [lia | discriminate]].
    match goal with |- context [run k replies ?w0] => specialize (IH replies w0 Hw) end.
    destruct (run k replies _) as [[t w'] st]; cbn in *. exact IH.
  - rewrite Hw.
    destruct (run_silent k Hk replies {| stored := stored w; responded := true |})
      as [Hr Hs].
    destruct (run k replies _) as [[t w'] st]; cbn in *. rewrite Hr. split; [cbn; lia | exact Hs].
  - rewrite Hw.
    destruct (run_silent k Hk replies {| stored := stored w; responded := true |})
      as [Hr Hs].
    destruct (run k replies _) as [[t w'] st]; cbn in *. rewrite Hr. split; [cbn; lia | exact Hs].
  - destruct replies as [ | x rest]; cbn; [split; [lia | discriminate] | ].
    specialize (IH x rest w Hw).
    destruct (run (k x) rest w) as [[t w'] st]; cbn in *. exact IH.
Qed.

Lemma getUserInfo_responds_once (JSON_parse : string -> option json) (v : jsval) :
  responds_once (SessionRequest.getUserInfo JSON_parse v).
Proof.
  unfold SessionRequest.getUserInfo. constructor. intros [ | statusCode body]; cbn.
  - quiet.
  - destruct (negb (statusCode =? 200)%Z); [quiet | ].
    destruct (JSON_parse body) as [json | ]; [ | quiet].
    destruct (negb (truthy_json json) || negb (truthy (member json "displayName")));
      quiet.
Qed.

Lemma request_oauth_responds_once
    (JSON_parse : string -> option json) (cfg : settings) (req : request) :
  responds_once (SessionRequest.get_oauth JSON_parse cfg req).
Proof.
  unfold SessionRequest.get_oauth. cbv zeta.
  destruct (qtruthy (q_error (query req))).
  - split_denials (query req); quiet.
  - destruct (negb (qtruthy (q_code (query req))) || negb (qtruthy (q_state (query req))));
      [quiet | ].
    unfold if_eq.
    destruct (loose_eq (q_state (query req)) (state cfg)) as [[ | ] | ]; [ | quiet ..].
    constructor. intros [ | statusCode body]; cbn; [quiet | ].
    destruct (negb (statusCode =? 200)%Z).
    + destruct (statusCode =? 400)%Z.
      * destruct (JSON_parse body) as [[ | | | | | ] | ]; quiet.
      * destruct (statusCode =? 401)%Z; quiet.
    + destruct (JSON_parse body) as [json | ]; [ | quiet].
      destruct (token_fields_missing json); [quiet | ].
      constructor. apply getUserInfo_responds_once.
Qed.

Lemma request_listrooms_responds_once
    (JSON_parse : string -> option json) (req : request) :
  responds_once (SessionRequest.get_listrooms JSON_parse req).
Proof.
  unfold SessionRequest.get_listrooms. cbv zeta.
  assert (Hcb : forall x, responds_once (SessionRequest.listrooms_callback JSON_parse x)).
  { intros [ | statusCode body]; cbn; [quiet | ].
    destruct (negb (statusCode =? 200)%Z); [quiet | ].
    destruct (JSON_parse body) as [json | ]; [ | quiet].
    constructor.
    destruct (negb (truthy_json json) || negb (truthy (member json "items"))); quiet. }
  destruct (token (req_session req)); constructor; constructor; exact Hcb.
Qed.

Lemma server_js_oauth_responds_once
    (JSON_parse : string -> option json) (cid secret uri : string) (req : request) :
  responds_once (ServerJs.get_oauth JSON_parse cid secret uri req).
Proof.
  unfold ServerJs.get_oauth. cbv zeta.
  destruct (qtruthy (q_error (query req))).
  - split_denials (query req); quiet.
  - destruct (negb (qtruthy (q_code (query req))) || negb (qtruthy (q_state (query req))));
      quiet.
Qed.

(** X5.  Every route of the request variant, and the route of [server.js],
    writes at most one response per request and never attempts a second one,
    whatever the query, the session and the replies. *)
Theorem routes_respond_at_most_once
    (JSON_parse : string -> option json) (cfg : settings)
    (path : string) (h : request -> script)
    (q : query_params) (s : session) (replies : list reply) :
  In (path, h) (SessionRequest.routes JSON_parse cfg)
  \/ In (path, h) (ServerJs.routes JSON_parse (clientId cfg) (clientSecret cfg)
                                   (redirectURI cfg)) ->
  (length (responses (trace_of (serve h q s replies))) <= 1)%nat
  /\ status_of (serve h q s replies) <> Uncaught HeadersSentError.
Proof.
  intros Hin. unfold serve, trace_of, status_of.
  apply run_responds_once; [ | reflexivity].
  destruct Hin as [Hin | Hin]; cbn in Hin.
  - destruct Hin as [E | [E | [E | [E | [E | []]]]]]; inversion E; subst; clear E.
    + unfold SessionRequest.get_index_html. quiet.
    + unfold SessionRequest.get_root. quiet.
    + unfold SessionRequest.get_logout. quiet.
    + apply request_listrooms_responds_once.
    + apply request_oauth_responds_once.
  - destruct Hin as [E | []]; inversion E; subst; clear E.
    apply server_js_oauth_responds_once.
Qed.

Lemma routes_respond_at_most_once_witness :
  In ("/oauth", SessionRequest.get_oauth JsonText.parse Sample.cfg)
     (SessionRequest.routes JsonText.parse Sample.cfg)
  /\ (length (responses (trace_of
        (serve (SessionRequest.get_oauth JsonText.parse Sample.cfg) Sample.callback
               Sample.anonymous [Response 200 Sample.bundle_body; NetworkFailure])))
      <= 1)%nat.
Proof.
  assert (Hin : In ("/oauth", SessionRequest.get_oauth JsonText.parse Sample.cfg)
                   (SessionRequest.routes JsonText.parse Sample.cfg)).
  { cbn. do 4 right. left. reflexivity. }
  split; [exact Hin | ].
  exact (proj1 (routes_respond_at_most_once JsonText.parse Sample.cfg "/oauth" _
                  Sample.callback Sample.anonymous
                  [Response 200 Sample.bundle_body; NetworkFailure] (or_introl Hin))).
Defined.

(** *** The room listing, for every session *)

(** A call whose callback issues no further call is the only call. *)
Lemma run_single_call (r : http_request) (k : reply -> script) :
  (forall x, call_free (k x)) ->
  forall replies w, calls (fst (fst (run (Call r k) replies w))) = [r].
Proof.
  intros Hk [ | x rest] w; cbn; [reflexivity | ].
  pose proof (run_call_free _ (Hk x) rest w) as Hc.
  destruct (run (k x) rest w) as [[t w'] st]; cbn in *. rewrite Hc. reflexivity.
Qed.

Lemma run_call_first (r : http_request) (k : reply -> script)
    (replies : list reply) (w : world) :
  hd_error (calls (fst (fst (run (Call r k) replies w)))) = Some r.
Proof.
  destruct replies as [ | x rest]; cbn [run]; [reflexivity | ].
  destruct (run (k x) rest w) as [[t w2] st]. reflexivity.
Qed.

Lemma calls_after_action (a : action) (k : script) (replies : list reply) (w w' : world) :
  perform a w = inl w' ->
  calls (fst (fst (run (Do a k) replies w))) = calls (fst (fst (run k replies w'))).
Proof.
  intros Hp. cbn [run]. rewrite Hp.
  destruct (run k replies w') as [[t w''] st]. reflexivity.
Qed.

Lemma request_listrooms_callback_call_free
    (JSON_parse : string -> option json) (x : reply) :
  call_free (SessionRequest.listrooms_callback JSON_parse x)
  /\ session_free (SessionRequest.listrooms_callback JSON_parse x).
Proof.
  destruct x as [ | statusCode body]; cbn; [split; repeat constructor | ].
  destruct (negb (statusCode =? 200)%Z); [split; repeat constructor | ].
  destruct (JSON_parse body) as [json | ]; [ | split; constructor].
  destruct (negb (truthy_json json) || negb (truthy (member json "items")));
    split; repeat constructor.
Qed.

Lemma request_listrooms_session_free
    (JSON_parse : string -> option json) (req : request) :
  session_free (SessionRequest.get_listrooms JSON_parse req).
Proof.
  unfold SessionRequest.get_listrooms. cbv zeta.
  destruct (token (req_session req)); constructor; constructor; intros x;
    apply request_listrooms_callback_call_free.
Qed.

Lemma fetch_listrooms_session_free
    (JSON_parse : string -> option json) (req : request) :
  session_free (SessionFetch.get_listrooms JSON_parse req).
Proof.
  unfold SessionFetch.get_listrooms. cbv zeta.
  destruct (SessionFetch.is_nullish (token (req_session req)));
    repeat constructor; intros [ | statusCode body]; try constructor;
    destruct (JSON_parse body) as [[ | | | | | ] | ]; repeat constructor.
Qed.

(** X7.  Whatever the session and the replies, [/listrooms] issues exactly
    one outbound call in both session variants: the GET of the rooms with the
    header [Bearer] followed by the session token as it converts to a string;
    and it never writes the session. *)
Theorem listrooms_one_bearer_call
    (JSON_parse : string -> option json) (q : query_params) (s : session)
    (replies : list reply) :
  let r1 := serve (SessionRequest.get_listrooms JSON_parse) q s replies in
  let r2 := serve (SessionFetch.get_listrooms JSON_parse) q s replies in
  calls (trace_of r1) = [rooms_request (token s)]
  /\ calls (trace_of r2) = [rooms_request (token s)]
  /\ session_writes (trace_of r1) = [] /\ session_after r1 = Some s
  /\ session_writes (trace_of r2) = [] /\ session_after r2 = Some s.
Proof.
  cbv zeta. unfold serve, trace_of, session_after.
  set (req := {| query := q; req_session := s |}).
  set (w := {| stored := Some s; responded := false |}).
  destruct (run_session_free _ (request_listrooms_session_free JSON_parse req) replies w)
    as [Hs1 Hw1].
  destruct (run_session_free _ (fetch_listrooms_session_free JSON_parse req) replies w)
    as [Hs2 Hw2].
  repeat split; try assumption.
  - unfold SessionRequest.get_listrooms. cbv zeta. cbn [req req_session].
    rewrite (calls_after_action _ _ replies w w)
      by (destruct (token s); reflexivity).
    apply run_single_call. intros x. apply request_listrooms_callback_call_free.
  - unfold SessionFetch.get_listrooms. cbv zeta. cbn [req req_session].
    assert (Hk : forall (r : http_request) w0,
              calls (fst (fst (run (Call r (fun x : reply =>
                match x with
                | NetworkFailure => Throw FetchError
                | Response _ body =>
                    match JSON_parse body with
                    | None => Throw FetchError
                    | Some data =>
                        Do (ConsoleLog "" [Some data])
                           (match data with
                            | JNull => Throw TypeError
                            | _ => Do (ResSend (Ejs "/www/list-rooms.ejs"
                                                    [("rooms", member data "items")]))
                                      Return
                            end)
                    end
                end)) replies w0))) = [r]).
    { intros r w0. apply run_single_call. intros [ | statusCode body]; [constructor | ].
      destruct (JSON_parse body) as [[ | | | | | ] | ]; repeat constructor. }
    destruct (SessionFetch.is_nullish (token s)).
    + rewrite (calls_after_action _ _ replies w w) by reflexivity.
      rewrite (calls_after_action _ _ replies w {| stored := Some s; responded := true |})
        by reflexivity.
      apply Hk.
    + apply Hk.
Qed.

(** *** The checks of the callback route, continued *)

(** X1.  A callback without error parameter that lacks the code or the state
    (absent or empty) is answered, in each of the three variants, by the
    unexpected-parameters page and nothing else: no outbound call, no write to
    the session, and the state is not compared. *)
Theorem oauth_missing_code_or_state
    (JSON_parse : string -> option json) (cfg : settings)
    (q : query_params) (s : session) (replies : list reply) :
  qtruthy (q_error q) = false ->
  qtruthy (q_code q) = false \/ qtruthy (q_state q) = false ->
  let answer :=
    ([Did (ResSend Pages.malformed_callback)],
     {| stored := Some s; responded := true |}, Completed) in
  serve (SessionRequest.get_oauth JSON_parse cfg) q s replies = answer
  /\ serve (SessionFetch.get_oauth JSON_parse (clientSecret cfg) (state cfg)) q s replies
     = answer
  /\ serve (ServerJs.get_oauth JSON_parse (clientId cfg) (clientSecret cfg) (redirectURI cfg))
           q s replies = answer.
Proof.
  intros Herr Hmiss answer. subst answer.
  unfold serve, SessionRequest.get_oauth, SessionFetch.get_oauth, ServerJs.get_oauth.
  cbn [query req_session]. rewrite Herr.
  assert (Hor : negb (qtruthy (q_code q)) || negb (qtruthy (q_state q)) = true).
  { destruct Hmiss as [-> | ->]; cbn; [reflexivity | apply orb_true_r]. }
  rewrite Hor. repeat split; reflexivity.
Qed.

Lemma oauth_missing_code_or_state_witness :
  let q := {| q_error := None; q_code := str "abc123"; q_state := str "" |} in
  qtruthy (q_state q) = false
  /\ serve (SessionRequest.get_oauth JsonText.parse Sample.cfg) q Sample.anonymous []
     = ([Did (ResSend Pages.malformed_callback)],
        {| stored := Some Sample.anonymous; responded := true |}, Completed).
Proof.
  intro q. split; [reflexivity | ].
  exact (proj1 (oauth_missing_code_or_state JsonText.parse Sample.cfg q Sample.anonymous []
                  eq_refl (or_intror eq_refl))).
Defined.

Lemma checks_pass_true (q : query_params) (expected : string) :
  checks_pass q expected = true ->
  qtruthy (q_error q) = false /\ qtruthy (q_code q) = true
  /\ qtruthy (q_state q) = true /\ loose_eq (q_state q) expected = Some true.
Proof.
  unfold checks_pass, compares_equal. intros H.
  apply andb_prop in H as [H H4]. apply andb_prop in H as [H H3].
  apply andb_prop in H as [H1 H2]. apply negb_true_iff in H1.
  destruct (loose_eq (q_state q) expected) as [[ | ] | ]; try discriminate H4. auto.
Qed.

Lemma checks_pass_false (q : query_params) (expected : string) :
  checks_pass q expected = false ->
  qtruthy (q_error q) = true \/ qtruthy (q_code q) = false
  \/ qtruthy (q_state q) = false \/ compares_equal (q_state q) expected = false.
Proof.
  unfold checks_pass.
  destruct (qtruthy (q_error q)), (qtruthy (q_code q)), (qtruthy (q_state q)),
    (compares_equal (q_state q) expected); cbn; intros H; try discriminate H; auto.
Qed.

Lemma request_oauth_after_checks
    (JSON_parse : string -> option json) (cfg : settings) (req : request) :
  checks_pass (query req) (state cfg) = true ->
  SessionRequest.get_oauth JSON_parse cfg req
  = Call (token_request cfg (query req)) (SessionRequest.oauth_callback JSON_parse).
Proof.
  intros H. apply checks_pass_true in H as (He & Hc & Hs & Heq).
  unfold SessionRequest.get_oauth, if_eq. cbv zeta. rewrite He, Hc, Hs, Heq. reflexivity.
Qed.

(** The fetch variant after its checks: the code is converted to a string,
    and the token request goes out unless that conversion throws. *)
Lemma fetch_oauth_after_checks
    (JSON_parse : string -> option json) (secret st : string) (req : request) :
  checks_pass (query req) st = true ->
  match qto_string (q_code (query req)) with
  | Some code =>
      exists k,
        SessionFetch.get_oauth JSON_parse secret st req
        = Call {| method := "POST";
                  url := "https://webexapis.com/v1/access_token";
                  headers := [("Content-type", "application/x-www-form-urlencoded")];
                  form := [("grant_type", str "authorization_code");
                           ("client_id", str SessionFetch.clientId);
                           ("client_secret", str secret);
                           ("code", str code);
                           ("redirect_uri", str SessionFetch.redirectURI)] |}
               k
        /\ k NetworkFailure = Throw FetchError
  | None => SessionFetch.get_oauth JSON_parse secret st req = Throw TypeError
  end.
Proof.
  intros H. apply checks_pass_true in H as (He & Hc & Hs & Heq).
  unfold SessionFetch.get_oauth, if_eq. cbv zeta. rewrite He, Hc, Hs, Heq. cbn [negb orb].
  destruct (qto_string (q_code (query req))) as [code | ]; [ | reflexivity].
  eexists. split; reflexivity.
Qed.

Lemma fetch_oauth_call_free
    (JSON_parse : string -> option json) (secret st : string) (req : request) :
  checks_pass (query req) st = false ->
  call_free (SessionFetch.get_oauth JSON_parse secret st req).
Proof.
  intros H. apply checks_pass_false in H.
  unfold SessionFetch.get_oauth. cbv zeta.
  destruct (qtruthy (q_error (query req))) eqn:Herr.
  - split_denials (query req); repeat constructor.
  - destruct (qtruthy (q_code (query req))); [ | repeat constructor].
    destruct (qtruthy (q_state (query req))); [ | repeat constructor].
    unfold compares_equal, if_eq in *.
    destruct H as [H | [H | [H | H]]]; try discriminate H.
    destruct (loose_eq (q_state (query req)) st) as [[ | ] | ];
      [discriminate H | repeat constructor ..].
Qed.

(** X2.  The callback route reaches the token endpoint exactly when the three
    checks pass (no truthy error parameter, a truthy code, a truthy state, and
    a state that compares equal to the expected one) and, in the fetch
    variant, the code converts to a string.  When it does, the first call is
    the token request: with the received code as it is in the request
    variant, with its string in the fetch variant. *)
Theorem token_request_iff_checks_pass
    (JSON_parse : string -> option json) (cfg : settings)
    (q : query_params) (s : session) (replies : list reply) :
  let r1 := serve (SessionRequest.get_oauth JSON_parse cfg) q s replies in
  let r2 := serve (SessionFetch.get_oauth JSON_parse (clientSecret cfg) (state cfg))
                  q s replies in
  (calls (trace_of r1) <> [] <-> checks_pass q (state cfg) = true)
  /\ (calls (trace_of r2) <> []
      <-> checks_pass q (state cfg) = true /\ qto_string (q_code q) <> None)
  /\ (checks_pass q (state cfg) = true ->
      hd_error (calls (trace_of r1)) = Some (token_request cfg q))
  /\ (forall code,
      checks_pass q (state cfg) = true ->
      qto_string (q_code q) = Some code ->
      exists r, hd_error (calls (trace_of r2)) = Some r
                /\ is_token_request r SessionFetch.clientId (clientSecret cfg) code
                                    SessionFetch.redirectURI)
  /\ (checks_pass q (state cfg) = true ->
      qto_string (q_code q) = None ->
      r2 = ([], {| stored := Some s; responded := false |}, Uncaught TypeError)).
Proof.
  cbv zeta. unfold serve, trace_of.
  set (req := {| query := q; req_session := s |}).
  set (w := {| stored := Some s; responded := false |}).
  destruct (checks_pass q (state cfg)) eqn:Hchk.
  - pose proof (request_oauth_after_checks JSON_parse cfg req Hchk) as H1.
    pose proof (fetch_oauth_after_checks JSON_parse (clientSecret cfg) (state cfg) req Hchk)
      as H2.
    cbn [req query] in H2.
    split; [ | split; [ | split; [ | split]]].
    + split; [reflexivity | intros _]. rewrite H1.
      destruct replies as [ | x rest]; cbn [run]; [cbn; discriminate | ].
      destruct (run _ rest w) as [[t w2] st]. cbn. discriminate.
    + destruct (qto_string (q_code q)) as [code | ].
      * destruct H2 as (k & -> & _).
        split; [intros _; split; [reflexivity | discriminate] | intros _].
        destruct replies as [ | x rest]; cbn [run]; [cbn; discriminate | ].
        destruct (run _ rest w) as [[t w2] st]. cbn. discriminate.
      * rewrite H2. cbn. split; [congruence | intros [_ H]; congruence].
    + intros _. rewrite H1.
      destruct replies as [ | x rest]; cbn [run]; [reflexivity | ].
      destruct (run _ rest w) as [[t w2] st]. reflexivity.
    + intros code _ Hcode. rewrite Hcode in H2. destruct H2 as (k & -> & _).
      eexists. split; [apply run_call_first | repeat split; reflexivity].
    + intros _ Hcode. rewrite Hcode in H2. rewrite H2. reflexivity.
  - split; [ | split; [ | split; [ | split]]]; try discriminate.
    + rewrite (run_call_free _
                 (request_oauth_call_free JSON_parse cfg req (checks_pass_false _ _ Hchk))).
      split; [congruence | discriminate].
    + rewrite (run_call_free _
                 (fetch_oauth_call_free JSON_parse (clientSecret cfg) (state cfg) req Hchk)).
      split; [congruence | intros [H _]; discriminate H].
Qed.

Lemma token_request_iff_checks_pass_witness :
  checks_pass Sample.callback (state Sample.cfg) = true
  /\ hd_error (calls (trace_of
        (serve (SessionRequest.get_oauth JsonText.parse Sample.cfg) Sample.callback
               Sample.anonymous [NetworkFailure])))
     = Some (token_request Sample.cfg Sample.callback).
Proof.
  split; [reflexivity | ].
  exact (proj1 (proj2 (proj2 (token_request_iff_checks_pass JsonText.parse Sample.cfg
                         Sample.callback Sample.anonymous [NetworkFailure]))) eq_refl).
Defined.

(** A code with a member [toString] and the expected state: the request
    variant sends the token request, the fetch variant throws before it. *)
Example code_with_toString :
  let q := {| q_error := None; q_code := Some (QObj [("toString", QStr "x")]);
              q_state := str "5ca1ab1e" |} in
  checks_pass q "5ca1ab1e" = true
  /\ calls (trace_of (serve (SessionRequest.get_oauth JsonText.parse Sample.cfg) q
                            Sample.anonymous []))
     = [token_request Sample.cfg q]
  /\ serve (SessionFetch.get_oauth JsonText.parse "s3cret" "5ca1ab1e") q Sample.anonymous []
     = ([], {| stored := Some Sample.anonymous; responded := false |}, Uncaught TypeError).
Proof. repeat split; reflexivity. Qed.

(** X3.  The callback route of [server.js] never issues an outbound call and
    never writes a session, whatever the query and the replies.  The handler
    ends in the [ReferenceError] of the undeclared [state] exactly when the
    first two checks pass; it has written nothing then, and Express answers
    the request with status 500.  Every callback is answered: by a page of the
    handler or by that status. *)
Theorem server_js_never_reaches_token_endpoint
    (JSON_parse : string -> option json) (cid secret uri : string)
    (q : query_params) (s : session) (replies : list reply) :
  let r := serve (ServerJs.get_oauth JSON_parse cid secret uri) q s replies in
  calls (trace_of r) = []
  /\ session_writes (trace_of r) = []
  /\ session_after r = Some s
  /\ (status_of r = Uncaught ReferenceError
      <-> qtruthy (q_error q) = false /\ qtruthy (q_code q) = true
          /\ qtruthy (q_state q) = true)
  /\ (status_of r = Uncaught ReferenceError ->
      Express.client_receives Express.Plain r = Express.InternalServerError)
  /\ ((exists p, Express.client_receives Express.Plain r = Express.Answer (ResSend (Html p)))
      \/ Express.client_receives Express.Plain r = Express.InternalServerError).
Proof.
  cbv zeta. unfold serve, ServerJs.get_oauth. cbn [query req_session].
  destruct (qtruthy (q_error q)).
  - split_denials q; cbn; (repeat split; try reflexivity; try discriminate;
      try (intros (H & _); discriminate H));
      first [ left; eexists; reflexivity | right; reflexivity ].
  - destruct (qtruthy (q_code q)), (qtruthy (q_state q)); cbn;
      (repeat split; try reflexivity; try discriminate;
       try (intros (_ & H1 & H2); discriminate));
      first [ left; eexists; reflexivity | right; reflexivity ].
Qed.

Lemma server_js_never_reaches_token_endpoint_witness :
  (qtruthy (q_error Sample.callback) = false
   /\ qtruthy (q_code Sample.callback) = true
   /\ qtruthy (q_state Sample.callback) = true)
  /\ Express.client_receives Express.Plain
       (serve (ServerJs.get_oauth JsonText.parse "C123" "s3cret"
                                  "http://localhost:8080/oauth")
              Sample.callback Sample.anonymous [Response 200 Sample.bundle_body])
     = Express.InternalServerError.
Proof.
  assert (Hchecks : qtruthy (q_error Sample.callback) = false
                    /\ qtruthy (q_code Sample.callback) = true
                    /\ qtruthy (q_state Sample.callback) = true).
  { split; [reflexivity | split; reflexivity]. }
  split; [exact Hchecks | ].
  pose proof (server_js_never_reaches_token_endpoint JsonText.parse "C123" "s3cret"
                "http://localhost:8080/oauth" Sample.callback Sample.anonymous
                [Response 200 Sample.bundle_body]) as (_ & _ & _ & Hiff & H500 & _).
  exact (H500 (proj2 Hiff Hchecks)).
Defined.

(** *** The two calls of a login *)





(** *** What the callback route shows *)



(** *** An unreachable provider *)



(** *** Start of the process *)

Lemma hex_lower_digit (n : nat) :
  (n < 16)%nat ->
  is_hex_lower (Process.hex_lower n) = true /\ unreserved (Process.hex_lower n) = true.
Proof.
  intros H. do 16 (destruct n as [ | n]; [split; reflexivity | ]). lia.
Qed.

Lemma to_hex_length (bytes : list ascii) :
  String.length (Process.to_hex bytes) = (2 * length bytes)%nat.
Proof.
  induction bytes as [ | b tl IH]; cbn [Process.to_hex String.length length];
    [reflexivity | rewrite IH; lia].
Qed.

Lemma to_hex_digits (bytes : list ascii) :
  Forall (fun c => is_hex_lower c = true /\ unreserved c = true)
         (chars (Process.to_hex bytes)).
Proof.
  induction bytes as [ | b tl IH]; cbn [Process.to_hex chars]; [constructor | ].
  pose proof (nat_ascii_bounded b) as Hb.
  constructor; [ | constructor; [ | exact IH]]; apply hex_lower_digit.
  - apply Nat.Div0.div_lt_upper_bound. lia.
  - apply Nat.mod_upper_bound. lia.
Qed.

Lemma encode_unreserved (s : string) :
  Forall (fun c => unreserved c = true) (chars s) -> encodeURIComponent s = s.
Proof.
  induction s as [ | c tl IH]; cbn [chars encodeURIComponent]; [reflexivity | ].
  intros H. inversion H as [ | ? ? Hc Htl]; subst.
  rewrite Hc, (IH Htl). reflexivity.
Qed.

Lemma or_else_nonempty (v : option string) (fallback : string) :
  fallback <> "" -> Process.or_else v (fun s => s) fallback <> "".
Proof.
  intros Hf. unfold Process.or_else. destruct v as [[ | c tl] | ]; cbn; congruence.
Qed.

Lemma to_hex_nonempty (bytes : list ascii) :
  bytes <> [] -> Process.to_hex bytes <> "".
Proof. destruct bytes; [congruence | discriminate]. Qed.

(** X9.  The request variant and [server.js] get past their first lines
    exactly when [CLIENT_ID], [CLIENT_SECRET] and [REDIRECT_URI] are all set
    and not empty; otherwise no route is registered.  A process that listens
    holds exactly those three values, none of them empty, a non-empty list of
    scopes and, in the request variant, a non-empty state. *)
Theorem startup_requires_three_settings
    (env : Process.environment) (random : list ascii) :
  let required :=
    Process.is_set (env "CLIENT_ID") && Process.is_set (env "CLIENT_SECRET")
    && Process.is_set (env "REDIRECT_URI") in
  (required = false ->
   SessionRequest.startup env random = None /\ ServerJs.startup env = None)
  /\ (required = true ->
      exists p c,
        SessionRequest.startup env random = Some p
        /\ ServerJs.startup env = Some c
        /\ env "CLIENT_ID" = Some (clientId (Process.cfg p))
        /\ env "CLIENT_SECRET" = Some (clientSecret (Process.cfg p))
        /\ env "REDIRECT_URI" = Some (redirectURI (Process.cfg p))
        /\ clientId (Process.cfg p) <> "" /\ clientSecret (Process.cfg p) <> ""
        /\ redirectURI (Process.cfg p) <> ""
        /\ Process.scopes p <> ""
        /\ (random <> [] -> state (Process.cfg p) <> "")
        /\ ServerJs.clientId c = clientId (Process.cfg p)
        /\ ServerJs.clientSecret c = clientSecret (Process.cfg p)
        /\ ServerJs.redirectURI c = redirectURI (Process.cfg p)
        /\ ServerJs.scopes c <> "").
Proof.
  cbv zeta. unfold SessionRequest.startup, ServerJs.startup, Process.is_set.
  destruct (env "CLIENT_ID") as [[ | a id] | ];
    destruct (env "CLIENT_SECRET") as [[ | b secret] | ];
    destruct (env "REDIRECT_URI") as [[ | c uri] | ]; cbn [nonempty negb orb andb];
    (split; intros H; try discriminate H; try (split; reflexivity)).
  do 2 eexists. cbn.
  repeat split; try reflexivity; try discriminate.
  - apply or_else_nonempty. discriminate.
  - intros Hr. apply or_else_nonempty, to_hex_nonempty, Hr.
  - apply or_else_nonempty. discriminate.
Qed.

Lemma startup_requires_three_settings_witness :
  exists p,
    SessionRequest.startup SampleEnv.configured SampleEnv.random = Some p
    /\ clientId (Process.cfg p) = "C123"
    /\ Process.port p = inr 8080%Z.
Proof.
  destruct (proj2 (startup_requires_three_settings SampleEnv.configured SampleEnv.random)
              eq_refl) as (p & c & Hp & _ & Hid & _).
  exists p. split; [exact Hp | ].
  cbv in Hp. inversion Hp; subst. split; reflexivity.
Defined.

(** X10.  The fetch variant checks other values than it seems to: its client
    id and redirect URI are the ones written into the authorization URL, so
    the process listens exactly when [CLIENT_SECRET] is set and not empty, and
    [CLIENT_ID] and [REDIRECT_URI] of the environment have no influence on the
    settings it runs with. *)
Theorem fetch_startup_depends_on_secret_only
    (env : Process.environment) (random : list ascii) :
  (Process.is_set (env "CLIENT_SECRET") = false -> SessionFetch.startup env random = None)
  /\ (Process.is_set (env "CLIENT_SECRET") = true ->
      exists p,
        SessionFetch.startup env random = Some p
        /\ env "CLIENT_SECRET" = Some (clientSecret (Process.cfg p))
        /\ clientId (Process.cfg p)
           = "C97c955d459b1195dd914456c56d7193b3b9db2f96e55226d1bb875c6dc40c16a"
        /\ redirectURI (Process.cfg p) = "http://localhost:8080/oauth"
        /\ Process.scopes p = "spark:kms spark:people_read spark:rooms_read")
  /\ (forall env' : Process.environment,
        env' "CLIENT_SECRET" = env "CLIENT_SECRET" ->
        env' "STATE" = env "STATE" ->
        env' "PORT" = env "PORT" ->
        SessionFetch.startup env' random = SessionFetch.startup env random).
Proof.
  unfold SessionFetch.startup, Process.is_set. cbv zeta.
  split; [ | split].
  - destruct (env "CLIENT_SECRET") as [[ | b secret] | ]; cbn; intros H;
      try discriminate H; reflexivity.
  - destruct (env "CLIENT_SECRET") as [[ | b secret] | ]; cbn; intros H;
      try discriminate H.
    eexists. repeat split; reflexivity.
  - intros env' -> -> ->. reflexivity.
Qed.

Lemma fetch_startup_depends_on_secret_only_witness :
  exists p,
    SessionFetch.startup SampleEnv.secret_only SampleEnv.random = Some p
    /\ redirectURI (Process.cfg p) = "http://localhost:8080/oauth".
Proof.
  destruct (proj1 (proj2 (fetch_startup_depends_on_secret_only SampleEnv.secret_only
                            SampleEnv.random)) eq_refl)
    as (p & Hp & _ & _ & Huri & _).
  exists p. split; [exact Hp | exact Huri].
Defined.

(** X16.  When [STATE] is not set, the state of both session variants is the
    hexadecimal text of the 64 random bytes: 128 lower-case digits.  Such a
    state passes [encodeURIComponent] unchanged, so appending it to the
    authorization URL as it is does not break the URL. *)
Theorem generated_state_is_hex
    (env : Process.environment) (random : list ascii) (p : Process.listening) :
  SessionRequest.startup env random = Some p
  \/ SessionFetch.startup env random = Some p ->
  Process.is_set (env "STATE") = false ->
  length random = 64%nat ->
  state (Process.cfg p) = Process.to_hex random
  /\ String.length (state (Process.cfg p)) = 128%nat
  /\ Forall (fun c => is_hex_lower c = true) (chars (state (Process.cfg p)))
  /\ encodeURIComponent (state (Process.cfg p)) = state (Process.cfg p).
Proof.
  intros Hstart Hstate Hlen.
  assert (Hs : state (Process.cfg p) = Process.to_hex random).
  { unfold Process.is_set in Hstate.
    destruct Hstart as [H | H].
    - unfold SessionRequest.startup in H.
      destruct (env "CLIENT_ID"), (env "CLIENT_SECRET"), (env "REDIRECT_URI");
        try discriminate H.
      destruct (negb _ || negb _ || negb _); [discriminate H | ].
      inversion H; subst; cbn. unfold Process.or_else.
      destruct (env "STATE") as [st | ]; [rewrite Hstate | ]; reflexivity.
    - unfold SessionFetch.startup in H. cbv zeta in H.
      destruct (env "CLIENT_SECRET"); [ | discriminate H].
      destruct (negb _ || negb _ || negb _); [discriminate H | ].
      inversion H; subst; cbn. unfold Process.or_else.
      destruct (env "STATE") as [st | ]; [rewrite Hstate | ]; reflexivity. }
  rewrite Hs. split; [reflexivity | ].
  pose proof (to_hex_digits random) as Hd.
  split; [rewrite to_hex_length, Hlen; reflexivity | split].
  - eapply Forall_impl; [ | exact Hd]. cbn. intros c [H _]. exact H.
  - apply encode_unreserved. eapply Forall_impl; [ | exact Hd]. cbn. intros c [_ H]. exact H.
Qed.

Lemma generated_state_is_hex_witness :
  SessionRequest.startup SampleEnv.configured SampleEnv.random <> None
  /\ String.length (Process.to_hex SampleEnv.random) = 128%nat.
Proof.
  split; [discriminate | ].
  destruct (SessionRequest.startup SampleEnv.configured SampleEnv.random) as [p | ] eqn:Hp;
    [ | discriminate Hp].
  destruct (generated_state_is_hex SampleEnv.configured SampleEnv.random p
              (or_introl Hp) eq_refl eq_refl) as (Hs & Hl & _).
  rewrite <- Hs. exact Hl.
Defined.

(** *** The logout URL of [server.js] *)

Lemma append_length (a b : string) :
  String.length (a ++ b) = (String.length a + String.length b)%nat.
Proof. induction a as [ | c a IH]; cbn; [reflexivity | rewrite IH; reflexivity]. Qed.



Lemma substring_prefix (a b : string) :
  String.substring 0 (String.length a) (a ++ b) = a.
Proof.
  induction a as [ | c a IH]; cbn; [destruct b; reflexivity | rewrite IH; reflexivity].
Qed.

Lemma substring_nothing (s : string) : String.substring 0 0 s = "".
Proof. destruct s; reflexivity. Qed.






(** X13.  The root URL of the logout is the redirect URI without its last
    five characters, whatever they are.  For an ASCII redirect URI
    [base ++ suffix] with a suffix of five characters, [getLogoutURL] puts the
    encoded [base] into [goto] and the [/logout] handler of the request
    variant logs [base]; an ASCII redirect URI of at most five characters
    gives an empty root. *)
Theorem logout_root_drops_five_characters
    (token : jsval) (cfg : settings) (base suffix : string)
    (q : query_params) (s : session) (replies : list reply) :
  is_ascii (base ++ suffix) = true ->
  String.length suffix = 5%nat ->
  ServerJs.getLogoutURL token (base ++ suffix)
  = logout_endpoint ++ "?goto=" ++ encodeURIComponent base
    ++ "&token=" ++ to_string token
  /\ (redirectURI cfg = base ++ suffix ->
      hd_error (trace_of (serve (SessionRequest.get_logout cfg) q s replies))
      = Some (Did (ConsoleLog ("rootURL is " ++ base) [])))
  /\ (forall short,
        is_ascii short = true ->
        (String.length short <= 5)%nat ->
        ServerJs.getLogoutURL token short
        = logout_endpoint ++ "?goto=&token=" ++ to_string token).
Proof.
  intros _ Hlen.
  assert (Hroot : String.substring 0 (String.length (base ++ suffix) - 5) (base ++ suffix)
                  = base).
  { rewrite append_length, Hlen, Nat.add_sub. apply substring_prefix. }
  split; [ | split].
  - rewrite getLogoutURL_shape, Hroot. reflexivity.
  - intros Huri. unfold serve, SessionRequest.get_logout. cbv zeta.
    rewrite Huri, Hroot. reflexivity.
  - intros short _ Hshort. apply Nat.sub_0_le in Hshort.
    rewrite getLogoutURL_shape, Hshort, substring_nothing. reflexivity.
Qed.

Lemma logout_root_drops_five_characters_witness :
  (is_ascii ("https://app.example/pos" ++ "tback") = true
   /\ String.length "tback" = 5%nat)
  /\ ServerJs.getLogoutURL (Some (JStr "T1")) ("https://app.example/pos" ++ "tback")
     = "https://idbroker.webex.com/idb/oauth2/v1/logout?goto=https%3A%2F%2Fapp.example%2Fpos&token=T1".
Proof.
  split; [split; reflexivity | ].
  exact (proj1 (logout_root_drops_five_characters (Some (JStr "T1")) Sample.cfg
                  "https://app.example/pos" "tback" no_query Sample.anonymous []
                  eq_refl eq_refl)).
Defined.

(** *** A session from login to logout *)



(** *** The refresh of the token *)

(** X15.  [refreshAccessToken] of [server.js] sends one POST to the token
    endpoint with the refresh grant: grant type, client id, client secret and
    the refresh token, without code and without redirect URI.  Whatever comes
    back, it writes no response and no session and issues no further call: the
    new tokens are dropped.  The only way it fails is the [SyntaxError] of a
    200 reply that is not JSON.  [storeTokens] is the same call: it uses its
    refresh token only. *)
Theorem refresh_is_fire_and_forget
    (JSON_parse : string -> option json) (cid secret : string)
    (access_token expires_in refresh_token_expires_in : jsval) (refresh_token : qparam)
    (replies : list reply) (w : world) :
  let r := run (ServerJs.refreshAccessToken JSON_parse cid secret refresh_token) replies w in
  calls (trace_of r)
  = [{| method := "POST";
        url := "https://webexapis.com/v1/access_token";
        headers := [("content-type", "application/x-www-form-urlencoded")];
        form := [("grant_type", str "refresh_token");
                 ("client_id", str cid);
                 ("client_secret", str secret);
                 ("refresh_token", refresh_token)] |}]
  /\ responses (trace_of r) = []
  /\ session_writes (trace_of r) = []
  /\ snd (fst r) = w
  /\ (status_of r = Completed
      \/ status_of r = AwaitingReply /\ replies = []
      \/ status_of r = Uncaught SyntaxError
         /\ exists body rest, replies = Response 200 body :: rest /\ JSON_parse body = None)
  /\ ServerJs.storeTokens JSON_parse cid secret access_token expires_in refresh_token
                          refresh_token_expires_in
     = ServerJs.refreshAccessToken JSON_parse cid secret refresh_token.
Proof.
  cbv zeta. unfold ServerJs.storeTokens, ServerJs.refreshAccessToken, trace_of, status_of.
  destruct replies as [ | [ | statusCode body] rest]; cbn [run];
    [cbn; repeat split; auto .. | ].
  destruct (statusCode =? 200)%Z eqn:H200; cbn [negb]; [ | cbn; repeat split; auto].
  apply Z.eqb_eq in H200. subst statusCode.
  destruct (JSON_parse body) as [json | ] eqn:Hj.
  - destruct (token_fields_missing json); cbn; repeat split; auto.
  - cbn. repeat split; auto. right. right. split; [reflexivity | eauto].
Qed.

(** *** From the environment to the token request *)

(** X11.  A request-variant process that listens accepts its own state: for
    every callback without error parameter whose code is a non-empty string
    and whose state is the state of the process, the first thing the callback
    route does is the token request, carrying that code and the client id,
    client secret and redirect URI that the environment held at start. *)
Theorem started_process_exchanges_code
    (JSON_parse : string -> option json)
    (env : Process.environment) (random : list ascii) (p : Process.listening)
    (q : query_params) (s : session) (code : string) (replies : list reply) :
  SessionRequest.startup env random = Some p ->
  random <> [] ->
  qtruthy (q_error q) = false ->
  q_code q = str code ->
  code <> "" ->
  q_state q = str (state (Process.cfg p)) ->
  exists id secret uri request rest,
    env "CLIENT_ID" = Some id
    /\ env "CLIENT_SECRET" = Some secret
    /\ env "REDIRECT_URI" = Some uri
    /\ trace_of (serve (SessionRequest.get_oauth JSON_parse (Process.cfg p)) q s replies)
       = Sent request :: rest
    /\ is_token_request request id secret code uri.
Proof.
  intros Hstart Hrandom Herr Hcode Hnonempty Hstate.
  assert (Hset : Process.is_set (env "CLIENT_ID") && Process.is_set (env "CLIENT_SECRET")
                 && Process.is_set (env "REDIRECT_URI") = true).
  { unfold SessionRequest.startup, Process.is_set in *.
    destruct (env "CLIENT_ID") as [id | ], (env "CLIENT_SECRET") as [secret | ],
      (env "REDIRECT_URI") as [uri | ]; try discriminate Hstart.
    destruct (nonempty id), (nonempty secret), (nonempty uri);
      try discriminate Hstart; reflexivity. }
  assert (Hst : state (Process.cfg p) <> "").
  { unfold SessionRequest.startup in Hstart.
    destruct (env "CLIENT_ID"), (env "CLIENT_SECRET"), (env "REDIRECT_URI");
      try discriminate Hstart.
    destruct (negb _ || negb _ || negb _); [discriminate Hstart | ].
    inversion Hstart; subst; cbn.
    apply or_else_nonempty, to_hex_nonempty, Hrandom. }
  assert (Hwf : well_formed_callback q code (state (Process.cfg p))).
  { repeat split; assumption. }
  exists (clientId (Process.cfg p)), (clientSecret (Process.cfg p)),
    (redirectURI (Process.cfg p)).
  unfold SessionRequest.startup in Hstart.
  destruct (env "CLIENT_ID") as [id | ], (env "CLIENT_SECRET") as [secret | ],
    (env "REDIRECT_URI") as [uri | ]; try discriminate Hstart.
  destruct (negb _ || negb _ || negb _); [discriminate Hstart | ].
  unfold serve, trace_of.
  rewrite (request_oauth_calls JSON_parse (Process.cfg p)
             {| query := q; req_session := s |} code Hwf).
  inversion Hstart; subst; cbn [Process.cfg clientId clientSecret redirectURI].
  destruct replies as [ | x rest]; cbn [run].
  - do 2 eexists. repeat split; reflexivity.
  - destruct (run _ rest _) as [[t w] st]. do 2 eexists. repeat split; reflexivity.
Qed.

Lemma started_process_exchanges_code_witness :
  SessionRequest.startup SampleEnv.configured SampleEnv.random <> None
  /\ exists p request rest,
       SessionRequest.startup SampleEnv.configured SampleEnv.random = Some p
       /\ trace_of (serve (SessionRequest.get_oauth JsonText.parse (Process.cfg p))
                          {| q_error := None; q_code := str "abc123";
                             q_state := str (state (Process.cfg p)) |}
                          Sample.anonymous [])
          = Sent request :: rest
       /\ is_token_request request "C123" "s3cret" "abc123" "http://localhost:8080/oauth".
Proof.
  split; [discriminate | ].
  destruct (SessionRequest.startup SampleEnv.configured SampleEnv.random) as [p | ] eqn:Hp;
    [ | discriminate Hp].
  assert (Hcode : "abc123" <> "") by discriminate.
  assert (Hrandom : SampleEnv.random <> []) by discriminate.
  destruct (started_process_exchanges_code JsonText.parse SampleEnv.configured
              SampleEnv.random p
              {| q_error := None; q_code := str "abc123";
                 q_state := str (state (Process.cfg p)) |}
              Sample.anonymous "abc123" [] Hp Hrandom eq_refl eq_refl Hcode eq_refl)
    as (id & secret & uri & request & rest & Hid & Hsecret & Huri & Htrace & Hreq).
  injection Hid as <-. injection Hsecret as <-. injection Huri as <-.
  exists p, request, rest. split; [reflexivity | split; [exact Htrace | exact Hreq]].
Defined.

(** *** Replies of the resource calls that are not JSON *)



(** *** The callback of [server.js] against the session variant *)

Lemma run_ignores_session (p : script) :
  session_free p ->
  forall replies w1 w2,
    responded w1 = responded w2 ->
    fst (fst (run p replies w1)) = fst (fst (run p replies w2))
    /\ snd (run p replies w1) = snd (run p replies w2).
Proof.
  induction 1 as [ | e | text args k _ IH | b k _ IH | l k _ IH | r k _ IH ];
    intros replies w1 w2 Hw; cbn.
  - split; reflexivity.
  - split; reflexivity.
  - destruct (IH replies w1 w2 Hw) as [Ht Hs].
    destruct (run k replies w1) as [[t1 w1'] st1], (run k replies w2) as [[t2 w2'] st2].
    cbn in *. subst. split; reflexivity.
  - rewrite Hw. destruct (responded w2); cbn; [split; reflexivity | ].
    destruct (IH replies {| stored := stored w1; responded := true |}
                 {| stored := stored w2; responded := true |} eq_refl) as [Ht Hs].
    destruct (run k replies _) as [[t1 w1'] st1], (run k replies _) as [[t2 w2'] st2].
    cbn in *. subst. split; reflexivity.
  - rewrite Hw. destruct (responded w2); cbn; [split; reflexivity | ].
    destruct (IH replies {| stored := stored w1; responded := true |}
                 {| stored := stored w2; responded := true |} eq_refl) as [Ht Hs].
    destruct (run k replies _) as [[t1 w1'] st1], (run k replies _) as [[t2 w2'] st2].
    cbn in *. subst. split; reflexivity.
  - destruct replies as [ | x rest]; cbn; [split; reflexivity | ].
    destruct (IH x rest w1 w2 Hw) as [Ht Hs].
    destruct (run (k x) rest w1) as [[t1 w1'] st1], (run (k x) rest w2) as [[t2 w2'] st2].
    cbn in *. subst. split; reflexivity.
Qed.

(** X18.  The token callback of [server.js] and the one of the request
    variant treat every reply alike, up to the session: for all replies they
    issue the same calls and send the same responses, and they end in the same
    way; the request variant writes the access token to the session where
    [server.js] writes nothing. *)
Theorem server_js_callback_matches_session_variant
    (JSON_parse : string -> option json) (s : session)
    (x : reply) (rest : list reply) :
  let w := {| stored := Some s; responded := false |} in
  let r1 := run (SessionRequest.oauth_callback JSON_parse x) rest w in
  let r2 := run (ServerJs.oauth_callback JSON_parse x) rest w in
  calls (trace_of r2) = calls (trace_of r1)
  /\ responses (trace_of r2) = responses (trace_of r1)
  /\ status_of r2 = status_of r1
  /\ session_writes (trace_of r2) = []
  /\ session_after r2 = Some s.
Proof.
  cbv zeta. unfold trace_of, status_of, session_after.
  destruct x as [ | statusCode body]; [cbn; repeat split; reflexivity | ].
  unfold SessionRequest.oauth_callback, ServerJs.oauth_callback.
  destruct (negb (statusCode =? 200)%Z).
  - destruct (statusCode =? 400)%Z.
    + destruct (JSON_parse body) as [[ | | | | | ] | ]; cbn; repeat split; reflexivity.
    + destruct (statusCode =? 401)%Z; cbn; repeat split; reflexivity.
  - destruct (JSON_parse body) as [j | ]; [ | cbn; repeat split; reflexivity].
    destruct (token_fields_missing j); [cbn; repeat split; reflexivity | ].
    cbn [run perform stored responded].
    change (ServerJs.oauthFlowCompleted JSON_parse (member j "access_token"))
      with (SessionRequest.getUserInfo JSON_parse (member j "access_token")).
    pose proof (getUserInfo_session_free JSON_parse (member j "access_token")) as Hsf.
    destruct (run_ignores_session _ Hsf rest
                {| stored := Some s; responded := false |}
                {| stored := Some {| token := member j "access_token" |};
                   responded := false |} eq_refl) as [Ht Hst].
    destruct (run_session_free _ Hsf rest {| stored := Some s; responded := false |})
      as [Hs Hw].
    destruct (run (SessionRequest.getUserInfo _ _) rest
                  {| stored := Some s; responded := false |}) as [[t1 w1] st1].
    destruct (run (SessionRequest.getUserInfo _ _) rest
                  {| stored := Some {| token := member j "access_token" |};
                     responded := false |}) as [[t2 w2] st2].
    cbn in *. subst. repeat split; try reflexivity; assumption.
Qed.
